(** * The greeting service of [app/app.js]

    [app.js] is a twelve-line Express program: it creates an application,
    registers one handler with [app.get('/')], and listens on [PORT].  What a
    client observes is decided by the program together with the parts of
    Express and of Node's [http] module that the program calls.  The
    development therefore has four layers:

    - [JS], [Http] and [Process]: strings, the request and response objects
      Node hands to a request listener, and the state of the process around
      them;
    - [Server]: [parserOnIncoming] of Node's [lib/_http_server.js], which
      decides whether a parsed request reaches the listener or is answered
      by the server itself (400 without [Host], 417 for an [Expect] it does
      not support);
    - [Express]: the router walk, [res.send], the final handler and
      [app.listen], following express 4 ([lib/application.js],
      [lib/router/index.js], [lib/router/route.js], [lib/response.js],
      [lib/request.js]) and its dependencies [parseurl], [fresh] and
      [finalhandler];
    - [App]: the embedding of [app.js] itself, statement by statement.

    Functions of the dependencies that the properties below do not look into
    (the SHA-1 based entity tag, Node's legacy URL parser, the error page
    renderer, ...) are collected in the record [Express.Deps] and stay
    abstract: every property holds for all of them.

    A response is what the application and Express put into the response
    object.  One connection, one request at a time; time does not pass. *)

From Stdlib Require Import String Ascii List ZArith Bool Lia DecimalString.
Import ListNotations.
Local Open Scope string_scope.

(** ** JavaScript strings *)

Module JS.

(** Strings are byte strings: the UTF-8 encoding of the JavaScript value,
    which is what [Buffer.byteLength(s, 'utf8')] measures and what goes on
    the wire. *)

Definition lower (c : ascii) : ascii :=
  let n := nat_of_ascii c in
  if andb (Nat.leb 65 n) (Nat.leb n 90) then ascii_of_nat (n + 32) else c.

Definition upper (c : ascii) : ascii :=
  let n := nat_of_ascii c in
  if andb (Nat.leb 97 n) (Nat.leb n 122) then ascii_of_nat (n - 32) else c.

Fixpoint map_chars (f : ascii -> ascii) (s : string) : string :=
  match s with
  | EmptyString => EmptyString
  | String c s' => String (f c) (map_chars f s')
  end.

Definition toLowerCase : string -> string := map_chars lower.
Definition toUpperCase : string -> string := map_chars upper.

(** [!s] is true for the empty string only. *)
Definition falsy (s : string) : bool := String.eqb s "".

(** [xs.join(sep)] *)
Fixpoint join (sep : string) (xs : list string) : string :=
  match xs with
  | [] => ""
  | [x] => x
  | x :: rest => x ++ sep ++ join sep rest
  end.

(** [String(n)] for a non-negative integer. *)
Definition nat_toString (n : nat) : string :=
  NilEmpty.string_of_uint (Nat.to_uint n).

(** [String(z)] for an integer. *)
Definition int_toString (z : Z) : string :=
  NilEmpty.string_of_int (Z.to_int z).

(** [str.split(sep)] on a one-character separator. *)
Fixpoint split (sep : ascii) (s : string) : list string :=
  match s with
  | EmptyString => [""]
  | String c s' =>
      if Ascii.eqb c sep then "" :: split sep s'
      else match split sep s' with
           | [] => [String c ""]
           | t :: ts => String c t :: ts
           end
  end.

Fixpoint drop_while (p : ascii -> bool) (s : string) : string :=
  match s with
  | EmptyString => EmptyString
  | String c s' => if p c then drop_while p s' else s
  end.

(** Drops the trailing characters that satisfy [p]. *)
Fixpoint drop_end (p : ascii -> bool) (s : string) : string :=
  match s with
  | EmptyString => EmptyString
  | String c s' =>
      match drop_end p s' with
      | EmptyString => if p c then EmptyString else String c EmptyString
      | t => String c t
      end
  end.

Definition trim (p : ascii -> bool) (s : string) : string :=
  drop_end p (drop_while p s).

Fixpoint any_char (p : ascii -> bool) (s : string) : bool :=
  match s with
  | EmptyString => false
  | String c s' => p c || any_char p s'
  end.

Fixpoint last_char (s : string) : option ascii :=
  match s with
  | EmptyString => None
  | String c EmptyString => Some c
  | String _ s' => last_char s'
  end.

(** [s.slice(0, -1)] *)
Fixpoint chop (s : string) : string :=
  match s with
  | EmptyString => EmptyString
  | String _ EmptyString => EmptyString
  | String c s' => String c (chop s')
  end.

End JS.

(** ** Node's [http] objects *)

Module Http.

(** The request methods Node's parser accepts ([http.METHODS] of Node 18, the
    runtime of the container image), without [CONNECT]: a [CONNECT] request
    raises the server's ['connect'] event and never reaches the request
    listener. *)
Inductive Method : Type :=
| ACL | BIND | CHECKOUT | COPY | DELETE | GET | HEAD | LINK | LOCK
| M_SEARCH | MERGE | MKACTIVITY | MKCALENDAR | MKCOL | MOVE | NOTIFY
| OPTIONS | PATCH | POST | PROPFIND | PROPPATCH | PURGE | PUT | REBIND
| REPORT | SEARCH | SOURCE | SUBSCRIBE | TRACE | UNBIND | UNLINK | UNLOCK
| UNSUBSCRIBE.

(** [req.method] *)
Definition method_name (m : Method) : string :=
  match m with
  | ACL => "ACL" | BIND => "BIND" | CHECKOUT => "CHECKOUT" | COPY => "COPY"
  | DELETE => "DELETE" | GET => "GET" | HEAD => "HEAD" | LINK => "LINK"
  | LOCK => "LOCK" | M_SEARCH => "M-SEARCH" | MERGE => "MERGE"
  | MKACTIVITY => "MKACTIVITY" | MKCALENDAR => "MKCALENDAR"
  | MKCOL => "MKCOL" | MOVE => "MOVE" | NOTIFY => "NOTIFY"
  | OPTIONS => "OPTIONS" | PATCH => "PATCH" | POST => "POST"
  | PROPFIND => "PROPFIND" | PROPPATCH => "PROPPATCH" | PURGE => "PURGE"
  | PUT => "PUT" | REBIND => "REBIND" | REPORT => "REPORT"
  | SEARCH => "SEARCH" | SOURCE => "SOURCE" | SUBSCRIBE => "SUBSCRIBE"
  | TRACE => "TRACE" | UNBIND => "UNBIND" | UNLINK => "UNLINK"
  | UNLOCK => "UNLOCK" | UNSUBSCRIBE => "UNSUBSCRIBE"
  end.

(** Header fields in insertion order.  Names are kept in lower case, as in
    [req.headers] and [res.getHeaders()]. *)
Definition Headers : Type := list (string * string).

Fixpoint lookup (name : string) (hs : Headers) : option string :=
  match hs with
  | [] => None
  | (k, v) :: rest => if String.eqb k name then Some v else lookup name rest
  end.

Fixpoint assign (name value : string) (hs : Headers) : Headers :=
  match hs with
  | [] => [(name, value)]
  | (k, v) :: rest =>
      if String.eqb k name then (k, value) :: rest
      else (k, v) :: assign name value rest
  end.

Definition remove (name : string) (hs : Headers) : Headers :=
  filter (fun kv => negb (String.eqb (fst kv) name)) hs.

(** [http.IncomingMessage]: the request line, the header fields, and the
    payload the client sent (a listener that wants it reads it from the
    stream; this program never does). *)
Record IncomingMessage : Type := mkRequest {
  method : Method;
  url : string;
  headers : Headers;
  body : string
}.

(** [http.ServerResponse]: the status code, the header fields set through
    [setHeader], the body written, and whether [end] was called.  The fields
    Node adds on its own when it writes the head ([Date], [Connection],
    [Keep-Alive]) are not part of it. *)
Record ServerResponse : Type := mkResponse {
  statusCode : Z;
  resHeaders : Headers;
  resBody : string;
  finished : bool
}.

(** [new ServerResponse(req)]: status 200, no header, nothing written. *)
Definition createResponse : ServerResponse :=
  {| statusCode := 200; resHeaders := []; resBody := ""; finished := false |}.

Definition getHeader (name : string) (res : ServerResponse) : option string :=
  lookup (JS.toLowerCase name) (resHeaders res).

Definition setHeader (name value : string) (res : ServerResponse)
  : ServerResponse :=
  {| statusCode := statusCode res;
     resHeaders := assign (JS.toLowerCase name) value (resHeaders res);
     resBody := resBody res;
     finished := finished res |}.

Definition removeHeader (name : string) (res : ServerResponse)
  : ServerResponse :=
  {| statusCode := statusCode res;
     resHeaders := remove (JS.toLowerCase name) (resHeaders res);
     resBody := resBody res;
     finished := finished res |}.

Definition setStatus (code : Z) (res : ServerResponse) : ServerResponse :=
  {| statusCode := code;
     resHeaders := resHeaders res;
     resBody := resBody res;
     finished := finished res |}.

(** [res.end(chunk)]; [res.end()] is [end_ ""].  A response that was already
    ended keeps what it sent. *)
Definition end_ (chunk : string) (res : ServerResponse) : ServerResponse :=
  if finished res then res
  else {| statusCode := statusCode res;
          resHeaders := resHeaders res;
          resBody := chunk;
          finished := true |}.

End Http.

(** ** The process around the server *)

Module Process.

(** What the program can change outside a request and its response: the
    lines written to standard output, the ports this process listens on, and
    the log of its bind attempts. *)
Record State : Type := mkState {
  stdout : list string;
  listening : list Z;
  bind_calls : list Z
}.

Definition initial : State :=
  {| stdout := []; listening := []; bind_calls := [] |}.

(** [console.log(line)] *)
Definition console_log (line : string) (st : State) : State :=
  {| stdout := (stdout st ++ [line])%list;
     listening := listening st;
     bind_calls := bind_calls st |}.

End Process.

(** ** Express *)

Module Express.
Import Http.

(** What parsing a request target gives: an object whose [pathname] is a
    string or [null], or an exception. *)
Inductive UrlParse : Type :=
| Parsed (pathname : option string)
| Threw.

(** Functions of Express's dependencies that stay abstract. *)
Record Deps : Type := mkDeps {
  (** [etag(body, {weak: true})]: the weak entity tag of a body, built from
      its length and its SHA-1 digest. *)
  etag : string -> string;
  (** [url.parse(str)], Node's legacy parser, which [parseurl] falls back
      to, by the [pathname] of its result. *)
  url_parse : string -> UrlParse;
  (** [encodeurl] *)
  encodeUrl : string -> string;
  (** [createHtmlDocument(message)] of [finalhandler] *)
  createHtmlDocument : string -> string;
  (** [Date.parse] of an HTTP date, [None] for [NaN] *)
  parseHttpDate : string -> option Z;
  (** [setCharset(type, charset)] of [lib/utils.js], for a content type the
      handler chose itself *)
  setCharset : string -> string -> string
}.

(** The two application settings that [res.send] and the init middleware
    read. *)
Record Settings : Type := mkSettings {
  x_powered_by : bool;
  etag_fn : bool
}.

(** [app.defaultConfiguration]: [x-powered-by] enabled, [etag] set to
    ['weak']. *)
Definition defaultConfiguration : Settings :=
  {| x_powered_by := true; etag_fn := true |}.

(** A route handler [(req, res, next) => ...] run to completion: the
    response and the process state it leaves, and whether it called
    [next()].  The first argument is the application the response belongs to
    ([res.app]). *)
Definition Handler : Type :=
  Settings -> IncomingMessage -> ServerResponse -> Process.State ->
  ServerResponse * Process.State * bool.

(** [Route]: its path, the methods it has handlers for (lower case), and its
    stack of handlers, each with the method it was registered for. *)
Record Route : Type := mkRoute {
  route_path : string;
  methods : list string;
  route_stack : list (option string * Handler)
}.

(** The layers of the application router: the two middleware layers
    [lazyrouter] installs, and route layers. *)
Inductive Layer : Type :=
| QueryLayer
| InitLayer
| RouteLayer (route : Route).

Record Application : Type := mkApplication {
  settings : Settings;
  router : option (list Layer)
}.

(** The outcome of walking the router stack: a handler kept the request, or
    every layer passed it on and [done] is called with the methods collected
    for an [OPTIONS] reply. *)
Inductive Walk : Type :=
| Stopped (res : ServerResponse) (st : Process.State)
| Fell (res : ServerResponse) (st : Process.State) (options : list string).

(** The outcome of [app.listen]: the server is listening, with the
    application as its request listener, or it emits ['error']; [st] is then
    the state at the moment of the event, before any listener has run. *)
Inductive Listen : Type :=
| Listening (listener : Application) (st : Process.State)
| ListenError (code : string) (st : Process.State).

Definition truthy (o : option string) : bool :=
  match o with
  | Some s => negb (JS.falsy s)
  | None => false
  end.

Definition code_in (codes : list nat) (c : ascii) : bool :=
  existsb (Nat.eqb (nat_of_ascii c)) codes.

(** *** parseurl *)

(** Characters that send [fastparse] to the legacy parser: tab, line feed,
    form feed, carriage return, space, [#] and U+00A0 (the byte 160 of a
    request target, which Node decodes as latin1). *)
Definition slow_char : ascii -> bool := code_in [9; 10; 12; 13; 32; 35; 160]%nat.

(** The part of [str] before its first [?]. *)
Fixpoint before_query (str : string) : string :=
  match str with
  | EmptyString => EmptyString
  | String c rest =>
      if Ascii.eqb c "?" then EmptyString else String c (before_query rest)
  end.

(** *** fresh *)

(** JavaScript's [\s] on bytes. *)
Definition white_space : ascii -> bool := code_in [9; 10; 11; 12; 13; 32; 160]%nat.

Definition is_space : ascii -> bool := code_in [32]%nat.

(** [/(?:^|,)\s*?no-cache\s*?(?:,|$)/.test(cacheControl)] *)
Definition no_cache (cacheControl : string) : bool :=
  existsb (fun seg => String.eqb (JS.trim white_space seg) "no-cache")
          (JS.split "," cacheControl).

(** [parseTokenList(str)]: the comma separated tokens, spaces around each
    dropped. *)
Definition parseTokenList (str : string) : list string :=
  map (JS.trim is_space) (JS.split "," str).

Definition etag_matches (etag match_ : string) : bool :=
  String.eqb match_ etag
  || String.eqb match_ ("W/" ++ etag)
  || String.eqb ("W/" ++ match_) etag.

(** *** Router *)

(** [Layer.prototype.match] for a route layer whose path is a literal (no
    parameter, no wildcard): the expression path-to-regexp builds for
    [{end: true, strict: false, sensitive: false}] is the path itself with
    an optional trailing slash, compared without regard to case; for ['/']
    it is [/^\/?$/i]. *)
Definition layer_match (route_path path : string) : bool :=
  let r := JS.toLowerCase route_path in
  let p := JS.toLowerCase path in
  match JS.last_char r with
  | Some "/"%char => String.eqb p r || String.eqb p (JS.chop r)
  | _ => String.eqb p r || String.eqb p (r ++ "/")
  end.

Definition has (name : string) (names : list string) : bool :=
  existsb (String.eqb name) names.

(** [Route.prototype._handles_method] *)
Definition handles_method (route : Route) (method : string) : bool :=
  if has "_all" (methods route) then true
  else
    let name := JS.toLowerCase method in
    let name :=
      if String.eqb name "head" && negb (has "head" (methods route))
      then "get" else name in
    has name (methods route).

(** [Route.prototype._options] *)
Definition route_options (route : Route) : list string :=
  let ms := methods route in
  let ms := if has "get" ms && negb (has "head" ms) then (ms ++ ["head"])%list else ms in
  map JS.toUpperCase ms.

(** [appendMethods(list, addition)]; [acc] is its [list]. *)
Fixpoint appendMethods (acc addition : list string) : list string :=
  match addition with
  | [] => acc
  | m :: rest =>
      appendMethods (if has m acc then acc else (acc ++ [m])%list) rest
  end.

(** The loop of [Route.prototype.dispatch] over the route's stack, for the
    method name [dispatch] computed. *)
Fixpoint dispatch_stack (method : string) (stack : list (option string * Handler))
    (app : Settings) (req : IncomingMessage) (res : ServerResponse)
    (st : Process.State) : ServerResponse * Process.State * bool :=
  match stack with
  | [] => (res, st, true)
  | (layer_method, handle) :: rest =>
      let skip :=
        match layer_method with
        | Some m => negb (String.eqb m method)
        | None => false
        end in
      if skip then dispatch_stack method rest app req res st
      else
        match handle app req res st with
        | (res', st', true) => dispatch_stack method rest app req res' st'
        | stopped => stopped
        end
  end.

(** [Route.prototype.dispatch] *)
Definition route_dispatch (route : Route) (app : Settings)
    (req : IncomingMessage) (res : ServerResponse) (st : Process.State)
  : ServerResponse * Process.State * bool :=
  let method := JS.toLowerCase (method_name (method req)) in
  let method :=
    if String.eqb method "head" && negb (has "head" (methods route))
    then "get" else method in
  dispatch_stack method (route_stack route) app req res st.

(** The loop of [proto.handle] in [lib/router/index.js] from the layer at
    the head of [stack] on. *)
Fixpoint walk (app : Settings) (stack : list Layer) (path : string)
    (options : list string) (req : IncomingMessage) (res : ServerResponse)
    (st : Process.State) : Walk :=
  match stack with
  | [] => Fell res st options
  | QueryLayer :: rest =>
      (* assigns req.query and calls next() *)
      walk app rest path options req res st
  | InitLayer :: rest =>
      let res :=
        if x_powered_by app then setHeader "X-Powered-By" "Express" res
        else res in
      walk app rest path options req res st
  | RouteLayer route :: rest =>
      if negb (layer_match (route_path route) path)
      then walk app rest path options req res st
      else
        let method := method_name (method req) in
        let has_method := handles_method route method in
        let options :=
          if negb has_method && String.eqb method "OPTIONS"
          then appendMethods options (route_options route) else options in
        if negb has_method && negb (String.eqb method "HEAD")
        then walk app rest path options req res st
        else
          match route_dispatch route app req res st with
          | (res', st', true) => walk app rest path options req res' st'
          | (res', st', false) => Stopped res' st'
          end
  end.

(** [express()]: the router is created lazily. *)
Definition express : Application :=
  {| settings := defaultConfiguration; router := None |}.

(** [app.lazyrouter()]: a new router starts with the [query] and
    [expressInit] middleware. *)
Definition lazyrouter (app : Application) : list Layer :=
  match router app with
  | Some stack => stack
  | None => [QueryLayer; InitLayer]
  end.

(** [app.get(path, handler)]: [router.route(path)] pushes a layer for a new
    route, and [route.get(handler)] records the method and the handler. *)
Definition app_get (path : string) (handler : Handler) (app : Application)
  : Application :=
  let route :=
    {| route_path := path;
       methods := ["get"];
       route_stack := [(Some "get", handler)] |} in
  {| settings := settings app;
     router := Some (lazyrouter app ++ [RouteLayer route])%list |}.

(** [app.listen(port, callback)], that is
    [http.createServer(app).listen(port, callback)], on a machine where the
    ports [occupied] are taken by other listeners: one bind attempt; the
    callback is the ['listening'] listener.  When the port is taken the
    server emits ['error'] with [EADDRINUSE]; what becomes of the process
    after the event is left open. *)
Definition app_listen (app : Application) (port : Z)
    (callback : Process.State -> Process.State)
    (occupied : list Z) (st : Process.State) : Listen :=
  let st :=
    {| Process.stdout := Process.stdout st;
       Process.listening := Process.listening st;
       Process.bind_calls := (Process.bind_calls st ++ [port])%list |} in
  if existsb (Z.eqb port) occupied then ListenError "EADDRINUSE" st
  else
    Listening app
      (callback
         {| Process.stdout := Process.stdout st;
            Process.listening := (Process.listening st ++ [port])%list;
            Process.bind_calls := Process.bind_calls st |}).

Section WithDeps.
Context (D : Deps).

(** [parseurl(req)]: [fastparse] for a target that starts with a slash and
    has none of the [slow_char]s after it, the legacy parser otherwise. *)
Definition parseurl (str : string) : UrlParse :=
  match str with
  | String c rest =>
      if Ascii.eqb c "/" && negb (JS.any_char slow_char rest)
      then Parsed (Some (before_query str))
      else url_parse D str
  | EmptyString => url_parse D str
  end.

(** [try { return parseUrl(req).pathname } catch (err) { return undefined }] *)
Definition parseurl_pathname (str : string) : option string :=
  match parseurl str with
  | Parsed pathname => pathname
  | Threw => None
  end.

(** [getPathname(req)] of the router. *)
Definition getPathname (req : IncomingMessage) : option string :=
  parseurl_pathname (url req).

(** [getResourceName(req)] of [finalhandler]: the pathname, as [encodeUrl]
    turns it into a string, or ['resource'] when parsing throws. *)
Definition getResourceName (req : IncomingMessage) : string :=
  match parseurl (url req) with
  | Parsed (Some p) => p
  | Parsed None => "null"
  | Threw => "resource"
  end.

(** [fresh(reqHeaders, resHeaders)] (fresh 0.5.2), [resHeaders] given by
    its [etag] and [last-modified] fields. *)
Definition fresh (reqHeaders : Headers) (etag lastModified : option string)
  : bool :=
  let modifiedSince := lookup "if-modified-since" reqHeaders in
  let noneMatch := lookup "if-none-match" reqHeaders in
  if negb (truthy modifiedSince) && negb (truthy noneMatch) then false
  else if
    match lookup "cache-control" reqHeaders with
    | Some cc => negb (JS.falsy cc) && no_cache cc
    | None => false
    end
  then false
  else if
    match noneMatch with
    | Some nm =>
        negb (JS.falsy nm) && negb (String.eqb nm "*")
        && match etag with
           | Some e =>
               JS.falsy e
               || negb (existsb (etag_matches e) (parseTokenList nm))
           | None => true
           end
    | None => false
    end
  then false
  else if
    match modifiedSince with
    | Some ms =>
        negb (JS.falsy ms)
        && match lastModified with
           | Some lm =>
               JS.falsy lm
               || match parseHttpDate D lm, parseHttpDate D ms with
                  | Some a, Some b => negb (Z.leb a b)
                  | _, _ => true
                  end
           | None => true
           end
    | None => false
    end
  then false
  else true.

(** The getter [req.fresh] of [lib/request.js]. *)
Definition req_fresh (req : IncomingMessage) (res : ServerResponse) : bool :=
  let method := method_name (method req) in
  let status := statusCode res in
  if negb (String.eqb method "GET") && negb (String.eqb method "HEAD")
  then false
  else if (Z.leb 200 status && Z.ltb status 300) || Z.eqb status 304
  then fresh (headers req) (getHeader "ETag" res) (getHeader "Last-Modified" res)
  else false.

(** [res.send(body)] for a string body, in the three steps of its text.

    First the entity headers.  [case 'string':] the type defaults to
    [html], and the charset of a string body is [utf-8]; then
    [Content-Length] is the byte length of the body, and an [ETag] is
    generated when the application has an [etag fn] and the handler set
    none. *)
Definition send_headers (app : Settings) (chunk : string)
    (res : ServerResponse) : ServerResponse :=
  let res :=
    match getHeader "Content-Type" res with
    | Some t =>
        if JS.falsy t then setHeader "Content-Type" "text/html; charset=utf-8" res
        else setHeader "Content-Type" (setCharset D t "utf-8") res
    | None => setHeader "Content-Type" "text/html; charset=utf-8" res
    end in
  let generateETag := negb (truthy (getHeader "ETag" res)) && etag_fn app in
  let res := setHeader "Content-Length" (JS.nat_toString (String.length chunk)) res in
  if generateETag
  then let e := etag D chunk in
       if JS.falsy e then res else setHeader "ETag" e res
  else res.

(** Then [if (req.fresh) this.statusCode = 304;] *)
Definition send_freshness (req : IncomingMessage) (res : ServerResponse)
  : ServerResponse :=
  if req_fresh req res then setStatus 304 res else res.

(** Last, the body: none, and no entity headers, for 204 and 304; none
    for 205; none for [HEAD]; the chunk otherwise. *)
Definition send_body (req : IncomingMessage) (chunk : string)
    (res : ServerResponse) : ServerResponse :=
  let stripped := Z.eqb (statusCode res) 204 || Z.eqb (statusCode res) 304 in
  let res :=
    if stripped
    then removeHeader "Transfer-Encoding"
           (removeHeader "Content-Length" (removeHeader "Content-Type" res))
    else res in
  let chunk := if stripped then "" else chunk in
  let reset := Z.eqb (statusCode res) 205 in
  let res :=
    if reset
    then removeHeader "Transfer-Encoding" (setHeader "Content-Length" "0" res)
    else res in
  let chunk := if reset then "" else chunk in
  if String.eqb (method_name (method req)) "HEAD" then end_ "" res
  else end_ chunk res.

Definition res_send (app : Settings) (req : IncomingMessage)
    (chunk : string) (res : ServerResponse) : ServerResponse :=
  send_body req chunk (send_freshness req (send_headers app chunk res)).

(** [sendOptionsResponse(res, options, next)] *)
Definition sendOptionsResponse (app : Settings) (req : IncomingMessage)
    (options : list string) (res : ServerResponse) : ServerResponse :=
  let body := JS.join "," options in
  res_send app req body (setHeader "Allow" body res).

(** [finalhandler(req, res)(undefined)]: the 404 reply, unless the
    response has already been sent. *)
Definition finalhandler (req : IncomingMessage) (res : ServerResponse)
  : ServerResponse :=
  if finished res then res
  else
    let msg :=
      "Cannot " ++ method_name (method req) ++ " "
      ++ encodeUrl D (getResourceName req) in
    let body := createHtmlDocument D msg in
    let res := setStatus 404 res in
    let res :=
      removeHeader "Content-Range"
        (removeHeader "Content-Language" (removeHeader "Content-Encoding" res)) in
    let res := setHeader "Content-Security-Policy" "default-src 'none'" res in
    let res := setHeader "X-Content-Type-Options" "nosniff" res in
    let res := setHeader "Content-Type" "text/html; charset=utf-8" res in
    let res := setHeader "Content-Length" (JS.nat_toString (String.length body)) res in
    if String.eqb (method_name (method req)) "HEAD" then end_ "" res
    else end_ body res.

(** [router.handle(req, res, done)] with the [done] of [app.handle]: walk
    the stack; when no layer keeps the request, an [OPTIONS] request for
    which methods were collected gets the automatic reply, any other
    request the final handler. *)
Definition router_handle (app : Settings) (stack : list Layer)
    (req : IncomingMessage) (res : ServerResponse) (st : Process.State)
  : ServerResponse * Process.State :=
  let w :=
    match getPathname req with
    | Some path => walk app stack path [] req res st
    | None => Fell res st []
    end in
  match w with
  | Stopped res' st' => (res', st')
  | Fell res' st' options =>
      if String.eqb (method_name (method req)) "OPTIONS"
         && negb (Nat.eqb (List.length options) 0)
      then (sendOptionsResponse app req options res', st')
      else (finalhandler req res', st')
  end.

(** [app.handle(req, res)], the request listener. *)
Definition app_handle (app : Application) (req : IncomingMessage)
    (res : ServerResponse) (st : Process.State)
  : ServerResponse * Process.State :=
  match router app with
  | Some stack => router_handle (settings app) stack req res st
  | None => (finalhandler req res, st)
  end.

(** The ['request'] event of a server whose listener is [app], when the
    server emits it ([Server.parserOnIncoming] below says for which
    requests): Node creates the response object and calls the application. *)
Definition request_event (app : Application) (st : Process.State)
    (req : IncomingMessage) : ServerResponse * Process.State :=
  app_handle app req createResponse st.

(** The requests of a history handled one after the other: the responses
    and the state that is left. *)
Fixpoint request_events (app : Application) (st : Process.State)
    (reqs : list IncomingMessage) : list ServerResponse * Process.State :=
  match reqs with
  | [] => ([], st)
  | req :: rest =>
      let (res, st') := request_event app st req in
      let (out, st'') := request_events app st' rest in
      (res :: out, st'')
  end.

End WithDeps.

End Express.

(** ** Node's HTTP server

    [parserOnIncoming] of [lib/_http_server.js] stands between the parser and
    the request listener: some requests it answers itself. *)

Module Server.
Import Http.

(** What the parser hands over for one request: the message, with the
    version of its request line ([req.httpVersionMajor],
    [req.httpVersionMinor]). *)
Record Incoming : Type := mkIncoming {
  httpVersionMajor : nat;
  httpVersionMinor : nat;
  message : IncomingMessage
}.

(** The server's answer to one request: whether it wrote [100 Continue]
    first, and the response. *)
Record Answer : Type := mkAnswer {
  continued : bool;
  response : ServerResponse
}.

(** A ['request'] listener, run to completion. *)
Definition Listener : Type :=
  Process.State -> IncomingMessage -> ServerResponse * Process.State.

(** [\w]: a letter, a digit or the underscore. *)
Definition word_char (c : ascii) : bool :=
  let n := nat_of_ascii c in
  (Nat.leb 48 n && Nat.leb n 57)
  || (Nat.leb 65 n && Nat.leb n 90)
  || (Nat.leb 97 n && Nat.leb n 122)
  || Nat.eqb n 95.

(** What follows [prefix] at the head of [s], letter case aside. *)
Fixpoint after_prefix (prefix s : string) : option string :=
  match prefix, s with
  | EmptyString, _ => Some s
  | String p prefix', String c s' =>
      if Ascii.eqb (JS.lower p) (JS.lower c) then after_prefix prefix' s'
      else None
  | String _ _, EmptyString => None
  end.

(** The search of [continueExpression] from a position of the value on;
    [boundary] says whether the position is the start of the value or
    follows a [\W]. *)
Fixpoint continue_from (boundary : bool) (s : string) : bool :=
  (boundary
   && match after_prefix "100-continue" s with
      | Some EmptyString => true
      | Some (String c _) => negb (word_char c)
      | None => false
      end)
  || match s with
     | EmptyString => false
     | String c s' => continue_from (negb (word_char c)) s'
     end.

(** [continueExpression.test(value)], where [continueExpression] is
    [/(?:^|\W)100-continue(?:$|\W)/i]. *)
Definition continueExpression (value : string) : bool :=
  continue_from true value.

(** [res.writeHead(400, ['Connection', 'close']); res.end();] *)
Definition bad_request : ServerResponse :=
  end_ "" (setHeader "Connection" "close" (setStatus 400 createResponse)).

(** [res.writeHead(417); res.end();] *)
Definition expectation_failed : ServerResponse :=
  end_ "" (setStatus 417 createResponse).

(** [parserOnIncoming] for a server with the defaults
    ([requireHostHeader] set, no [maxRequestsPerSocket]) whose only listener
    is the ['request'] listener, as [http.createServer(app)] makes it: an
    HTTP/1.1 request without [Host] gets 400; an HTTP/1.1 request with an
    [Expect] field gets [100 Continue] and then the listener when the field
    asks for it, and 417 otherwise; every other request goes to the
    listener. *)
Definition parserOnIncoming (listener : Listener) (st : Process.State)
    (incoming : Incoming) : Answer * Process.State :=
  let req := message incoming in
  let emit (interim : bool) :=
    let (res, st') := listener st req in
    ({| continued := interim; response := res |}, st') in
  if Nat.eqb (httpVersionMajor incoming) 1
     && Nat.eqb (httpVersionMinor incoming) 1
  then
    match lookup "host" (headers req) with
    | None => ({| continued := false; response := bad_request |}, st)
    | Some _ =>
        match lookup "expect" (headers req) with
        | Some expect =>
            if continueExpression expect then emit true
            else ({| continued := false; response := expectation_failed |}, st)
        | None => emit false
        end
    end
  else emit false.

(** Whether [parserOnIncoming] emits ['request'] for the request. *)
Definition emits_request (incoming : Incoming) : bool :=
  let req := message incoming in
  if Nat.eqb (httpVersionMajor incoming) 1
     && Nat.eqb (httpVersionMinor incoming) 1
  then
    match lookup "host" (headers req) with
    | None => false
    | Some _ =>
        match lookup "expect" (headers req) with
        | Some expect => continueExpression expect
        | None => true
        end
    end
  else true.

(** The requests of a history as the parser hands them over, answered one
    after the other. *)
Fixpoint incoming_events (listener : Listener) (st : Process.State)
    (history : list Incoming) : list Answer * Process.State :=
  match history with
  | [] => ([], st)
  | incoming :: rest =>
      let (a, st') := parserOnIncoming listener st incoming in
      let (out, st'') := incoming_events listener st' rest in
      (a :: out, st'')
  end.

End Server.

(** ** [app/app.js] *)

Module App.
Import Http Express Server.

(** [const PORT = 3000;] *)
Definition PORT : Z := 3000.

(** The string literal passed to [res.send]. *)
Definition greeting : string := "Hello from ECS deployed via Azure DevOps 🚀".

(** [() => { console.log(`App running on port ${PORT}`); }] *)
Definition on_listening : Process.State -> Process.State :=
  Process.console_log ("App running on port " ++ JS.int_toString PORT).

Definition listen_state (l : Listen) : Process.State :=
  match l with
  | Listening _ st => st
  | ListenError _ st => st
  end.

(** The routes of an application, each with its methods. *)
Definition routes (a : Application) : list (string * list string) :=
  flat_map
    (fun layer =>
       match layer with
       | RouteLayer r => [(route_path r, methods r)]
       | _ => []
       end)
    (match router a with Some stack => stack | None => [] end).

Section WithDeps.
Context (D : Deps).

(** [(req, res) => { res.send('Hello from ECS deployed via Azure DevOps 🚀'); }] *)
Definition root_handler : Handler :=
  fun app req res st => (res_send D app req greeting res, st, false).

(** [const app = express(); app.get('/', ...);] *)
Definition app : Application := app_get "/" root_handler express.

(** The process after the module body has run, on a machine where the ports
    [occupied] are taken: [app.listen(PORT, ...)] is its last statement. *)
Definition main (occupied : list Z) : Listen :=
  app_listen app PORT on_listening occupied Process.initial.

(** A request, and a history of requests, on the server of this program. *)
Definition on_request (st : Process.State) (req : IncomingMessage)
  : ServerResponse * Process.State :=
  request_event D app st req.

Definition respond (st : Process.State) (req : IncomingMessage)
  : ServerResponse :=
  fst (on_request st req).

Definition serve (st : Process.State) (reqs : list IncomingMessage)
  : list ServerResponse * Process.State :=
  request_events D app st reqs.

(** The [ETag] field [res.send] gives the greeting. *)
Definition entity_tag : option string :=
  if JS.falsy (etag D greeting) then None else Some (etag D greeting).

(** [req.fresh] as [res.send] evaluates it for the greeting: the request
    is a conditional one whose validators match. *)
Definition is_fresh (req : IncomingMessage) : bool :=
  fresh D (headers req) entity_tag None.

(** The response object when the router reaches the route layer. *)
Definition initialised : ServerResponse :=
  setHeader "X-Powered-By" "Express" createResponse.

Definition etag_field : Headers :=
  match entity_tag with
  | Some e => [("etag", e)]
  | None => []
  end.

(** The header fields of a greeting response, and of a 304 response. *)
Definition greeting_headers : Headers :=
  ("x-powered-by", "Express")
    :: ("content-type", "text/html; charset=utf-8")
    :: ("content-length", "45")
    :: etag_field.

Definition not_modified_headers : Headers :=
  ("x-powered-by", "Express") :: etag_field.

(** A request as the parser hands it to the server that [main] started,
    whose listener is [app]: the answer and the state that is left; the
    response of the answer; and a history of such requests. *)
Definition on_incoming (st : Process.State) (incoming : Incoming)
  : Answer * Process.State :=
  parserOnIncoming on_request st incoming.

Definition answer (st : Process.State) (incoming : Incoming)
  : ServerResponse :=
  response (fst (on_incoming st incoming)).

Definition answers (st : Process.State) (history : list Incoming)
  : list Answer * Process.State :=
  incoming_events on_request st history.

End WithDeps.

(** Sample requests and a sample instance of the dependencies, for the
    examples below. *)
Definition sample_deps : Deps :=
  {| etag := fun chunk => "W/" ++ JS.nat_toString (String.length chunk);
     url_parse := fun _ => Parsed None;
     encodeUrl := fun s => s;
     createHtmlDocument := fun msg => "<pre>" ++ msg ++ "</pre>";
     parseHttpDate := fun _ => None;
     setCharset := fun t _ => t |}.

Definition request (m : Method) (target : string) : IncomingMessage :=
  {| method := m; url := target; headers := []; body := "" |}.

(** A request for [/] with [If-None-Match: *]. *)
Definition conditional (m : Method) : IncomingMessage :=
  {| method := m; url := "/"; headers := [("if-none-match", "*")]; body := "" |}.

(** The same request sent with [GET]. *)
Definition as_get (req : IncomingMessage) : IncomingMessage :=
  {| method := GET; url := url req; headers := headers req; body := body req |}.

Definition incoming_as_get (incoming : Incoming) : Incoming :=
  {| httpVersionMajor := httpVersionMajor incoming;
     httpVersionMinor := httpVersionMinor incoming;
     message := as_get (message incoming) |}.

(** An HTTP/1.1 request for [target] with a [Host] field and the header
    fields [fields]. *)
Definition http11 (m : Method) (target : string) (fields : Headers)
  : Incoming :=
  {| httpVersionMajor := 1;
     httpVersionMinor := 1;
     message := {| method := m; url := target;
                   headers := ("host", "localhost:3000") :: fields;
                   body := "" |} |}.

End App.

Import Http Express Server App.

Example get_root :
  respond sample_deps Process.initial (request GET "/")
  = {| statusCode := 200;
       resHeaders := [("x-powered-by", "Express");
                      ("content-type", "text/html; charset=utf-8");
                      ("content-length", "45");
                      ("etag", "W/45")];
       resBody := greeting;
       finished := true |}.
Proof. reflexivity. Qed.

Example post_root :
  respond sample_deps Process.initial (request POST "/")
  = {| statusCode := 404;
       resHeaders := [("x-powered-by", "Express");
                      ("content-security-policy", "default-src 'none'");
                      ("x-content-type-options", "nosniff");
                      ("content-type", "text/html; charset=utf-8");
                      ("content-length", "24")];
       resBody := "<pre>Cannot POST /</pre>";
       finished := true |}.
Proof. reflexivity. Qed.

Example options_root :
  respond sample_deps Process.initial (request OPTIONS "/")
  = {| statusCode := 200;
       resHeaders := [("x-powered-by", "Express");
                      ("allow", "GET,HEAD");
                      ("content-type", "text/html; charset=utf-8");
                      ("content-length", "8");
                      ("etag", "W/8")];
       resBody := "GET,HEAD";
       finished := true |}.
Proof. reflexivity. Qed.

Example head_root :
  respond sample_deps Process.initial (request HEAD "/")
  = {| statusCode := 200;
       resHeaders := [("x-powered-by", "Express");
                      ("content-type", "text/html; charset=utf-8");
                      ("content-length", "45");
                      ("etag", "W/45")];
       resBody := "";
       finished := true |}.
Proof. reflexivity. Qed.

Example get_root_conditional :
  respond sample_deps Process.initial (conditional GET)
  = {| statusCode := 304;
       resHeaders := [("x-powered-by", "Express"); ("etag", "W/45")];
       resBody := "";
       finished := true |}.
Proof. reflexivity. Qed.

Example get_other :
  statusCode (respond sample_deps Process.initial (request GET "/anything?x=1")) = 404%Z.
Proof. reflexivity. Qed.

Example get_root_query :
  resBody (respond sample_deps Process.initial (request GET "/?x=1&y=2")) = greeting.
Proof. reflexivity. Qed.

Example get_root_http11 :
  on_incoming sample_deps Process.initial (http11 GET "/" [])
  = ({| continued := false;
        response := respond sample_deps Process.initial (request GET "/") |},
     Process.initial).
Proof. reflexivity. Qed.

Example get_root_expect_continue :
  on_incoming sample_deps Process.initial
    (http11 GET "/" [("expect", "100-Continue")])
  = ({| continued := true;
        response := respond sample_deps Process.initial (request GET "/") |},
     Process.initial).
Proof. reflexivity. Qed.

Example get_root_expect_other :
  answer sample_deps Process.initial (http11 GET "/" [("expect", "foo")])
  = {| statusCode := 417; resHeaders := []; resBody := ""; finished := true |}.
Proof. reflexivity. Qed.

Example get_root_without_host :
  answer sample_deps Process.initial
    {| httpVersionMajor := 1; httpVersionMinor := 1;
       message := request GET "/" |}
  = {| statusCode := 400; resHeaders := [("connection", "close")];
       resBody := ""; finished := true |}.
Proof. reflexivity. Qed.

Example get_root_http10_without_host :
  answer sample_deps Process.initial
    {| httpVersionMajor := 1; httpVersionMinor := 0;
       message := request GET "/" |}
  = respond sample_deps Process.initial (request GET "/").
Proof. reflexivity. Qed.

Example main_free :
  main sample_deps [80%Z]
  = Listening (app sample_deps)
      {| Process.stdout := ["App running on port 3000"];
         Process.listening := [3000%Z];
         Process.bind_calls := [3000%Z] |}.
Proof. reflexivity. Qed.

Example main_taken :
  main sample_deps [3000%Z]
  = ListenError "EADDRINUSE"
      {| Process.stdout := []; Process.listening := []; Process.bind_calls := [3000%Z] |}.
Proof. reflexivity. Qed.

(** * Properties *)

(** ** The route pattern *)

Lemma lower_fixes_slash (c : ascii) : JS.lower c = "/"%char -> c = "/"%char.
Proof.
  destruct c as [[] [] [] [] [] [] [] []]; vm_compute; intro H;
    first [reflexivity | discriminate H].
Qed.

Lemma toLowerCase_slash (p : string) : JS.toLowerCase p = "/" -> p = "/".
Proof.
  destruct p as [|c [|c' p']]; simpl; intro H; try discriminate H.
  injection H as H. apply lower_fixes_slash in H. now subst.
Qed.

Lemma toLowerCase_empty (p : string) : JS.toLowerCase p = "" -> p = "".
Proof. destruct p; simpl; intro H; [reflexivity | discriminate H]. Qed.

(** The pattern of the route ['/'] accepts the pathname ["/"] and the empty
    pathname, nothing else. *)
Lemma layer_match_root (p : string) :
  layer_match "/" p = true <-> p = "/" \/ p = "".
Proof.
  unfold layer_match. simpl. rewrite orb_true_iff, !String.eqb_eq. split.
  - intros [H | H];
      [left; now apply toLowerCase_slash | right; now apply toLowerCase_empty].
  - intros [-> | ->]; [left | right]; reflexivity.
Qed.

Lemma layer_match_other (p : string) :
  p <> "/" -> p <> "" -> layer_match "/" p = false.
Proof.
  intros H1 H2. destruct (layer_match "/" p) eqn:E; [|reflexivity].
  apply layer_match_root in E. tauto.
Qed.

(** A query string does not change the pathname. *)
Lemma before_query_root (q : string) : before_query ("/?" ++ q) = "/".
Proof. reflexivity. Qed.

Lemma getPathname_root_query (D : Deps) (m : Method) (q : string)
    (hs : Headers) (b : string) :
  JS.any_char slow_char q = false ->
  getPathname D {| method := m; url := "/?" ++ q; headers := hs; body := b |}
  = Some "/".
Proof.
  intros Hq. unfold getPathname, parseurl_pathname, parseurl. simpl url.
  change ("/?" ++ q) with (String "/" (String "?" q)).
  cbn [JS.any_char]. rewrite Hq. reflexivity.
Qed.

(** The pathname of an origin-form target starts with its slash: an empty
    pathname can only come from the legacy parser. *)
Lemma getPathname_origin_form (D : Deps) (req : IncomingMessage)
    (rest : string) :
  url req = String "/" rest ->
  JS.any_char slow_char rest = false ->
  getPathname D req = Some (String "/" (before_query rest)).
Proof.
  intros Hu Hs. unfold getPathname, parseurl_pathname, parseurl. rewrite Hu.
  cbn [Ascii.eqb Bool.eqb andb]. now rewrite Hs.
Qed.

(** ** [res.send] and the final handler on the responses of this program *)

Section Responses.
Context (D : Deps).

(** The entity headers [res.send] gives the greeting. *)
Lemma send_headers_greeting :
  send_headers D defaultConfiguration greeting initialised
  = {| statusCode := 200;
       resHeaders := greeting_headers D;
       resBody := "";
       finished := false |}.
Proof.
  unfold send_headers, greeting_headers, etag_field, entity_tag.
  generalize (etag D greeting) as e. intros [|c e]; reflexivity.
Qed.

(** [req.fresh] on that response is the freshness of the request headers
    against the entity tag of the greeting. *)
Lemma req_fresh_greeting (req : IncomingMessage) (body : string) (done : bool) :
  method req = GET \/ method req = HEAD ->
  req_fresh D req
    {| statusCode := 200; resHeaders := greeting_headers D;
       resBody := body; finished := done |}
  = is_fresh D req.
Proof.
  intros Hm. unfold req_fresh, is_fresh, getHeader, greeting_headers, etag_field.
  cbn [statusCode resHeaders]. destruct Hm as [-> | ->];
    destruct (entity_tag D); reflexivity.
Qed.

(** What [res.send] makes of the greeting for a [GET] or [HEAD] request. *)
Lemma res_send_greeting (req : IncomingMessage) :
  method req = GET \/ method req = HEAD ->
  res_send D defaultConfiguration req greeting initialised
  = if is_fresh D req
    then {| statusCode := 304;
            resHeaders := not_modified_headers D;
            resBody := "";
            finished := true |}
    else {| statusCode := 200;
            resHeaders := greeting_headers D;
            resBody := match method req with HEAD => "" | _ => greeting end;
            finished := true |}.
Proof.
  intros Hm. unfold res_send, send_freshness.
  rewrite send_headers_greeting, (req_fresh_greeting req "" false Hm).
  unfold send_body, greeting_headers, not_modified_headers, etag_field.
  destruct Hm as [Hm | Hm]; rewrite Hm;
    destruct (is_fresh D req), (entity_tag D); reflexivity.
Qed.

(** The automatic reply to [OPTIONS]: [req.fresh] is false for this method,
    so the status stays 200. *)
Lemma sendOptionsResponse_root (req : IncomingMessage) :
  method req = OPTIONS ->
  let res := sendOptionsResponse D defaultConfiguration req ["GET"; "HEAD"] initialised in
  statusCode res = 200%Z
  /\ lookup "allow" (resHeaders res) = Some "GET,HEAD"
  /\ resBody res = "GET,HEAD"
  /\ finished res = true.
Proof.
  intros Hm.
  assert (Hf : forall r, req_fresh D req r = false)
    by (intro r; unfold req_fresh; rewrite Hm; reflexivity).
  unfold sendOptionsResponse, res_send, send_freshness.
  change (JS.join "," ["GET"; "HEAD"]) with "GET,HEAD".
  rewrite Hf. unfold send_headers, send_body. rewrite Hm.
  generalize (etag D "GET,HEAD") as e. intros [|c e]; repeat split.
Qed.

Lemma finalhandler_not_found (req : IncomingMessage) (res : ServerResponse) :
  finished res = false ->
  statusCode (finalhandler D req res) = 404%Z
  /\ finished (finalhandler D req res) = true.
Proof.
  intros Hf. unfold finalhandler. rewrite Hf.
  destruct (String.eqb (method_name (method req)) "HEAD");
    unfold end_; simpl; rewrite Hf; simpl; split; reflexivity.
Qed.

(** ** One request *)

(** The request listener of this program, case by case: the router stack is
    the two middleware layers and the layer of the route ['/']. *)
Lemma on_request_cases (st : Process.State) (req : IncomingMessage) :
  on_request D st req
  = (match getPathname D req with
     | Some p =>
         if layer_match "/" p
         then match method req with
              | GET | HEAD =>
                  res_send D defaultConfiguration req greeting initialised
              | OPTIONS =>
                  sendOptionsResponse D defaultConfiguration req
                    ["GET"; "HEAD"] initialised
              | _ => finalhandler D req initialised
              end
         else finalhandler D req initialised
     | None => finalhandler D req createResponse
     end, st).
Proof.
  unfold on_request, request_event, app_handle, app, app_get, router_handle,
    lazyrouter.
  cbn [router settings express app].
  destruct (getPathname D req) as [p|];
    [|destruct req as [[] u hs b]; reflexivity].
  cbn [walk route_path x_powered_by defaultConfiguration List.app].
  fold initialised.
  destruct (layer_match "/" p); destruct req as [[] u hs b]; reflexivity.
Qed.

(** Handling a request leaves the process state as it was. *)
Lemma on_request_state (st : Process.State) (req : IncomingMessage) :
  snd (on_request D st req) = st.
Proof. rewrite on_request_cases. reflexivity. Qed.

(** The response does not depend on the process state. *)
Lemma respond_any_state (st st' : Process.State) (req : IncomingMessage) :
  respond D st req = respond D st' req.
Proof. unfold respond. rewrite !on_request_cases. reflexivity. Qed.

(** ** Histories *)

Lemma serve_state (st : Process.State) (reqs : list IncomingMessage) :
  snd (serve D st reqs) = st.
Proof.
  unfold serve. revert st.
  induction reqs as [|req rest IH]; intros st; [reflexivity|].
  cbn [request_events]. fold (on_request D st req).
  pose proof (on_request_state st req) as Hst.
  destruct (on_request D st req) as [res st']. simpl in Hst. subst st'.
  specialize (IH st). destruct (request_events D (app D) st rest) as [out st''].
  exact IH.
Qed.

Lemma serve_responses (st : Process.State) (reqs : list IncomingMessage) :
  fst (serve D st reqs) = map (respond D st) reqs.
Proof.
  unfold serve. revert st.
  induction reqs as [|req rest IH]; intros st; [reflexivity|].
  cbn [request_events map]. unfold respond at 1. fold (on_request D st req).
  pose proof (on_request_state st req) as Hst.
  destruct (on_request D st req) as [res st']. simpl in Hst. subst st'.
  specialize (IH st). destruct (request_events D (app D) st rest) as [out st''].
  simpl in *. now rewrite IH.
Qed.

(** ** The responses to [/] *)

Lemma respond_root (st : Process.State) (req : IncomingMessage) :
  getPathname D req = Some "/" ->
  method req = GET \/ method req = HEAD ->
  respond D st req
  = if is_fresh D req
    then {| statusCode := 304;
            resHeaders := not_modified_headers D;
            resBody := "";
            finished := true |}
    else {| statusCode := 200;
            resHeaders := greeting_headers D;
            resBody := match method req with HEAD => "" | _ => greeting end;
            finished := true |}.
Proof.
  intros Hp Hm. unfold respond. rewrite on_request_cases, Hp.
  cbn [fst]. change (layer_match "/" "/") with true. cbv iota.
  rewrite <- (res_send_greeting req Hm).
  destruct Hm as [-> | ->]; reflexivity.
Qed.

(** A request without [If-None-Match] and [If-Modified-Since] is never
    fresh. *)
Lemma unconditional_not_fresh (req : IncomingMessage) :
  lookup "if-none-match" (headers req) = None ->
  lookup "if-modified-since" (headers req) = None ->
  is_fresh D req = false.
Proof.
  intros H1 H2. unfold is_fresh, fresh. rewrite H1, H2. reflexivity.
Qed.

(** [If-None-Match: *] alone makes a request fresh. *)
Lemma conditional_fresh (m : Method) : is_fresh D (conditional m) = true.
Proof. unfold is_fresh, fresh. reflexivity. Qed.

End Responses.

(** ** On the wire *)

Section Wire.
Context (D : Deps).

(** A request for which the server emits ['request'] gets the response of
    the application. *)
Lemma on_incoming_emitted (st : Process.State) (w : Incoming) :
  emits_request w = true ->
  answer D st w = respond D st (message w)
  /\ snd (on_incoming D st w) = st.
Proof.
  unfold answer, on_incoming, parserOnIncoming, emits_request, respond.
  pose proof (on_request_state D st (message w)) as Hst.
  destruct (on_request D st (message w)) as [res st']. simpl in Hst. subst st'.
  destruct (Nat.eqb (httpVersionMajor w) 1 && Nat.eqb (httpVersionMinor w) 1);
    [|now split].
  destruct (lookup "host" (headers (message w))); [|discriminate].
  destruct (lookup "expect" (headers (message w))) as [e|]; [|now split].
  destruct (continueExpression e); [now split | discriminate].
Qed.

(** Any other request gets one of the two replies of the server itself. *)
Lemma on_incoming_refused (st : Process.State) (w : Incoming) :
  emits_request w = false ->
  (answer D st w = bad_request \/ answer D st w = expectation_failed)
  /\ snd (on_incoming D st w) = st.
Proof.
  unfold answer, on_incoming, parserOnIncoming, emits_request.
  destruct (on_request D st (message w)) as [res st'].
  destruct (Nat.eqb (httpVersionMajor w) 1 && Nat.eqb (httpVersionMinor w) 1);
    [|discriminate].
  destruct (lookup "host" (headers (message w))); [|now split; [left|]].
  destruct (lookup "expect" (headers (message w))) as [e|]; [|discriminate].
  destruct (continueExpression e); [discriminate | now split; [right|]].
Qed.

Lemma on_incoming_state (st : Process.State) (w : Incoming) :
  snd (on_incoming D st w) = st.
Proof.
  destruct (emits_request w) eqn:E.
  - apply (on_incoming_emitted st w E).
  - apply (on_incoming_refused st w E).
Qed.

Lemma answer_any_state (st st' : Process.State) (w : Incoming) :
  answer D st w = answer D st' w.
Proof.
  destruct (emits_request w) eqn:E.
  - destruct (on_incoming_emitted st w E) as [-> _].
    destruct (on_incoming_emitted st' w E) as [-> _].
    apply respond_any_state.
  - unfold answer, on_incoming, parserOnIncoming. unfold emits_request in E.
    destruct (on_request D st (message w)) as [r1 s1].
    destruct (on_request D st' (message w)) as [r2 s2].
    destruct (Nat.eqb (httpVersionMajor w) 1 && Nat.eqb (httpVersionMinor w) 1);
      [|discriminate].
    destruct (lookup "host" (headers (message w))); [|reflexivity].
    destruct (lookup "expect" (headers (message w))) as [e|]; [|discriminate].
    destruct (continueExpression e); [discriminate | reflexivity].
Qed.

Lemma answers_state (st : Process.State) (history : list Incoming) :
  snd (answers D st history) = st.
Proof.
  unfold answers. revert st.
  induction history as [|w rest IH]; intros st; [reflexivity|].
  cbn [incoming_events]. fold (on_incoming D st w).
  pose proof (on_incoming_state st w) as Hst.
  destruct (on_incoming D st w) as [a st']. simpl in Hst. subst st'.
  specialize (IH st).
  destruct (incoming_events (on_request D) st rest) as [out st''].
  exact IH.
Qed.

Lemma answers_responses (st : Process.State) (history : list Incoming) :
  map response (fst (answers D st history)) = map (answer D st) history.
Proof.
  unfold answers. revert st.
  induction history as [|w rest IH]; intros st; [reflexivity|].
  cbn [incoming_events map]. unfold answer at 1. fold (on_incoming D st w).
  pose proof (on_incoming_state st w) as Hst.
  destruct (on_incoming D st w) as [a st']. simpl in Hst. subst st'.
  specialize (IH st).
  destruct (incoming_events (on_request D) st rest) as [out st''].
  simpl in *. now rewrite IH.
Qed.

(** The server's own replies are neither the greeting nor a 404. *)
Lemma refused_status (st : Process.State) (w : Incoming) :
  emits_request w = false ->
  (statusCode (answer D st w) = 400%Z \/ statusCode (answer D st w) = 417%Z)
  /\ resHeaders (answer D st w) <> greeting_headers D
  /\ resBody (answer D st w) = ""
  /\ finished (answer D st w) = true
  /\ lookup "x-powered-by" (resHeaders (answer D st w)) = None.
Proof.
  intros E. destruct (on_incoming_refused st w E) as [[-> | ->] _];
    (split; [auto|]); repeat split; discriminate.
Qed.

End Wire.

(** ** The greeting *)

(** C1, as amended.  Take a [GET] request whose pathname is [/], that the
    server hands to the application (HTTP/1.0, or HTTP/1.1 with a [Host]
    field and no [Expect] field other than [100-continue]) and that is not a
    fresh conditional request.  It is answered with status 200 and the
    greeting as its body; however often the same request is repeated, every
    response has that status and, byte for byte, that body. *)
Theorem C1_get_root_greeting (D : Deps) (st : Process.State) (w : Incoming) :
  method (message w) = GET ->
  getPathname D (message w) = Some "/" ->
  emits_request w = true ->
  is_fresh D (message w) = false ->
  statusCode (answer D st w) = 200%Z
  /\ resBody (answer D st w) = greeting
  /\ forall n : nat,
       Forall (fun a => statusCode (response a) = 200%Z
                        /\ resBody (response a) = greeting)
              (fst (answers D st (repeat w n))).
Proof.
  intros Hm Hp He Hf.
  destruct (on_incoming_emitted D st w He) as [Ha _].
  assert (H : statusCode (answer D st w) = 200%Z
              /\ resBody (answer D st w) = greeting).
  { rewrite Ha, (respond_root D st (message w) Hp (or_introl Hm)), Hf, Hm.
    now split. }
  destruct H as [Hs Hb]. repeat split; trivial.
  intros n. apply Forall_forall. intros a Hin.
  apply (in_map response) in Hin. rewrite answers_responses in Hin.
  apply in_map_iff in Hin. destruct Hin as [w' [Hw' Hr]].
  apply repeat_spec in Hr. subst w'. rewrite <- Hw'. now split.
Qed.

Lemma C1_get_root_greeting_witness :
  method (message (http11 GET "/" [])) = GET
  /\ getPathname sample_deps (message (http11 GET "/" [])) = Some "/"
  /\ emits_request (http11 GET "/" []) = true
  /\ is_fresh sample_deps (message (http11 GET "/" [])) = false
  /\ (statusCode (answer sample_deps Process.initial (http11 GET "/" []))
      = 200%Z
      /\ resBody (answer sample_deps Process.initial (http11 GET "/" []))
         = greeting
      /\ forall n : nat,
           Forall (fun a => statusCode (response a) = 200%Z
                            /\ resBody (response a) = greeting)
                  (fst (answers sample_deps Process.initial
                          (repeat (http11 GET "/" []) n)))).
Proof.
  split; [reflexivity|]. split; [reflexivity|]. split; [reflexivity|].
  split; [reflexivity|].
  apply (C1_get_root_greeting sample_deps Process.initial (http11 GET "/" []));
    reflexivity.
Defined.

(** C1 as stated fails: the HTTP/1.1 request [GET /] with [Host] and
    [If-None-Match: *] has method [GET] and pathname [/] and reaches the
    handler, and [res.send] answers it 304 with an empty body, whatever the
    dependencies and the state. *)
Lemma C1_conditional_get_not_modified :
  method (message (http11 GET "/" [("if-none-match", "*")])) = GET
  /\ emits_request (http11 GET "/" [("if-none-match", "*")]) = true
  /\ forall (D : Deps) (st : Process.State),
       getPathname D (message (http11 GET "/" [("if-none-match", "*")]))
       = Some "/"
       /\ statusCode (answer D st (http11 GET "/" [("if-none-match", "*")]))
          = 304%Z
       /\ resBody (answer D st (http11 GET "/" [("if-none-match", "*")]))
          = "".
Proof.
  split; [reflexivity|]. split; [reflexivity|]. intros D st.
  split; [reflexivity|].
  destruct (on_incoming_emitted D st
              (http11 GET "/" [("if-none-match", "*")]) eq_refl) as [-> _].
  rewrite (respond_root D st
             (message (http11 GET "/" [("if-none-match", "*")]))
             eq_refl (or_introl eq_refl)).
  assert (Hf : is_fresh D (message (http11 GET "/" [("if-none-match", "*")]))
               = true) by reflexivity.
  rewrite Hf. now split.
Qed.

(** C2, as amended.  Among the requests for [/], the ones answered with the
    greeting response (status 200, the greeting headers, the greeting body)
    are exactly the [GET] requests that the server hands to the application
    and that are not fresh conditional requests, whatever their other header
    fields, their body and their query string.  Every other request for [/]
    (another method, a fresh conditional [GET], a request the server answers
    itself) gets a different response. *)
Theorem C2_root_greeting_iff_get (D : Deps) (st : Process.State)
    (w : Incoming) :
  getPathname D (message w) = Some "/" ->
  answer D st w
  = {| statusCode := 200;
       resHeaders := greeting_headers D;
       resBody := greeting;
       finished := true |}
  <-> emits_request w = true
      /\ method (message w) = GET
      /\ is_fresh D (message w) = false.
Proof.
  intros Hp. split.
  - intros Hr. destruct (emits_request w) eqn:He.
    + destruct (on_incoming_emitted D st w He) as [Ha _]. rewrite Ha in Hr.
      split; [reflexivity|].
      destruct (method (message w)) eqn:Hm.
      all: try (exfalso; unfold respond in Hr;
                rewrite on_request_cases, Hp, Hm in Hr;
                cbn [fst] in Hr; change (layer_match "/" "/") with true in Hr;
                cbv iota in Hr;
                pose proof (finalhandler_not_found D (message w) initialised
                              eq_refl) as [Hs _];
                rewrite Hr in Hs; discriminate Hs).
      * rewrite (respond_root D st (message w) Hp (or_introl Hm)) in Hr.
        destruct (is_fresh D (message w)); [discriminate Hr | now split].
      * exfalso.
        rewrite (respond_root D st (message w) Hp (or_intror Hm)), Hm in Hr.
        destruct (is_fresh D (message w)); discriminate Hr.
      * exfalso. unfold respond in Hr.
        rewrite on_request_cases, Hp, Hm in Hr.
        cbn [fst] in Hr. change (layer_match "/" "/") with true in Hr.
        cbv iota in Hr.
        pose proof (sendOptionsResponse_root D (message w) Hm)
          as [_ [_ [Hb _]]].
        rewrite Hr in Hb. discriminate Hb.
    + exfalso. destruct (refused_status D st w He) as [[Hs | Hs] _];
        rewrite Hr in Hs; discriminate Hs.
  - intros [He [Hm Hf]].
    destruct (on_incoming_emitted D st w He) as [-> _].
    rewrite (respond_root D st (message w) Hp (or_introl Hm)), Hf, Hm.
    reflexivity.
Qed.

Lemma C2_root_greeting_iff_get_witness :
  getPathname sample_deps
    (message (http11 GET "/?lang=en" [("accept", "*/*")])) = Some "/"
  /\ (answer sample_deps Process.initial
        (http11 GET "/?lang=en" [("accept", "*/*")])
      = {| statusCode := 200;
           resHeaders := greeting_headers sample_deps;
           resBody := greeting;
           finished := true |}
      <-> emits_request (http11 GET "/?lang=en" [("accept", "*/*")]) = true
          /\ method (message (http11 GET "/?lang=en" [("accept", "*/*")]))
             = GET
          /\ is_fresh sample_deps
               (message (http11 GET "/?lang=en" [("accept", "*/*")]))
             = false).
Proof.
  split; [reflexivity|].
  exact (C2_root_greeting_iff_get sample_deps Process.initial
           (http11 GET "/?lang=en" [("accept", "*/*")]) eq_refl).
Defined.

(** C2 as stated fails: the HTTP/1.1 request [POST /] with [Host] is a
    request to the root path that reaches the application, and it is
    answered 404 by the final handler. *)
Lemma C2_post_root_not_found :
  method (message (http11 POST "/" [])) = POST
  /\ emits_request (http11 POST "/" []) = true
  /\ forall (D : Deps) (st : Process.State),
       getPathname D (message (http11 POST "/" [])) = Some "/"
       /\ statusCode (answer D st (http11 POST "/" [])) = 404%Z.
Proof.
  split; [reflexivity|]. split; [reflexivity|]. intros D st.
  split; [reflexivity|].
  destruct (on_incoming_emitted D st (http11 POST "/" []) eq_refl) as [-> _].
  unfold respond. rewrite on_request_cases.
  apply (finalhandler_not_found D (message (http11 POST "/" [])) initialised
           eq_refl).
Qed.

(** ** Requests the route does not serve *)

(** The server that [main] starts has the application of this program as
    its listener. *)
Lemma main_listener (D : Deps) (occupied : list Z) (a : Application)
    (st : Process.State) :
  main D occupied = Listening a st -> a = app D.
Proof.
  unfold main, app_listen.
  destruct (existsb (Z.eqb PORT) occupied); intros H;
    [discriminate H | now injection H].
Qed.

(** C3.  Take two runs of the program, each on its own machine and each with
    its own history of requests already handled.  A request other than [GET]
    on the root route gets the same response status in both. *)
Theorem C3_unmatched_status_deterministic (D : Deps)
    (occupied1 occupied2 : list Z) (a1 a2 : Application)
    (st1 st2 : Process.State)
    (history1 history2 : list IncomingMessage) (req : IncomingMessage) :
  main D occupied1 = Listening a1 st1 ->
  main D occupied2 = Listening a2 st2 ->
  ~ (method req = GET /\ getPathname D req = Some "/") ->
  statusCode
    (fst (request_event D a1 (snd (request_events D a1 st1 history1)) req))
  = statusCode
      (fst (request_event D a2 (snd (request_events D a2 st2 history2)) req)).
Proof.
  intros H1 H2 _.
  apply main_listener in H1. apply main_listener in H2. subst a1 a2.
  fold (serve D st1 history1). fold (serve D st2 history2).
  rewrite !serve_state.
  exact (f_equal statusCode (respond_any_state D st1 st2 req)).
Qed.

Lemma C3_unmatched_status_deterministic_witness :
  main sample_deps [] = Listening (app sample_deps)
                          (listen_state (main sample_deps []))
  /\ main sample_deps [80%Z; 443%Z]
     = Listening (app sample_deps)
         (listen_state (main sample_deps [80%Z; 443%Z]))
  /\ ~ (method (request POST "/") = GET
        /\ getPathname sample_deps (request POST "/") = Some "/")
  /\ statusCode
       (fst (request_event sample_deps (app sample_deps)
               (snd (request_events sample_deps (app sample_deps)
                       (listen_state (main sample_deps []))
                       [request GET "/"]))
               (request POST "/")))
     = statusCode
         (fst (request_event sample_deps (app sample_deps)
                 (snd (request_events sample_deps (app sample_deps)
                         (listen_state (main sample_deps [80%Z; 443%Z]))
                         [request GET "/anything"; request HEAD "/"]))
                 (request POST "/"))).
Proof.
  assert (Hne : ~ (method (request POST "/") = GET
                   /\ getPathname sample_deps (request POST "/") = Some "/"))
    by (intros [Hm _]; discriminate Hm).
  split; [reflexivity|]. split; [reflexivity|]. split; [exact Hne|].
  exact (C3_unmatched_status_deterministic sample_deps [] [80%Z; 443%Z]
           (app sample_deps) (app sample_deps)
           (listen_state (main sample_deps []))
           (listen_state (main sample_deps [80%Z; 443%Z]))
           [request GET "/"] [request GET "/anything"; request HEAD "/"]
           (request POST "/") eq_refl eq_refl Hne).
Defined.

(** C8, as amended.  Of the requests the server hands to the application:
    one whose method is none of [GET], [HEAD] and [OPTIONS], or whose
    pathname the pattern of the route does not accept (any pathname but [/]
    and the empty one), is answered 404 by the final handler; an [OPTIONS]
    request whose pathname the pattern accepts is answered 200 by the
    router; the application has one route, ['/'] for [get], and no other
    handler. *)
Theorem C8_unmatched_not_found (D : Deps) (st : Process.State)
    (w : Incoming) :
  emits_request w = true ->
  ((method (message w) <> GET /\ method (message w) <> HEAD
    /\ method (message w) <> OPTIONS)
   \/ (getPathname D (message w) <> Some "/"
       /\ getPathname D (message w) <> Some "") ->
   statusCode (answer D st w) = 404%Z /\ finished (answer D st w) = true)
  /\ (method (message w) = OPTIONS ->
      getPathname D (message w) = Some "/"
      \/ getPathname D (message w) = Some "" ->
      statusCode (answer D st w) = 200%Z /\ finished (answer D st w) = true)
  /\ routes (app D) = [("/", ["get"])].
Proof.
  intros He. destruct (on_incoming_emitted D st w He) as [-> _].
  split; [|split; [|reflexivity]].
  - intros H.
    assert (Hr : exists res, finished res = false
                             /\ respond D st (message w)
                                = finalhandler D (message w) res).
    { unfold respond. rewrite on_request_cases. cbn [fst].
      destruct (getPathname D (message w)) as [p|] eqn:Hp;
        [|exists createResponse; now split].
      exists initialised. split; [reflexivity|].
      destruct (layer_match "/" p) eqn:Hl; [|reflexivity].
      destruct H as [[Hg [Hh Ho]] | [H1 H2]].
      - destruct (method (message w)); try reflexivity; congruence.
      - apply layer_match_root in Hl. destruct Hl as [-> | ->]; congruence. }
    destruct Hr as [res [Hf ->]].
    apply (finalhandler_not_found D (message w) res Hf).
  - intros Hm Hp.
    assert (Hl : exists p, getPathname D (message w) = Some p
                           /\ layer_match "/" p = true).
    { destruct Hp as [Hp | Hp]; eexists; (split; [exact Hp | reflexivity]). }
    destruct Hl as [p [Hp' Hl]].
    unfold respond. rewrite on_request_cases, Hp', Hl, Hm. cbn [fst].
    destruct (sendOptionsResponse_root D (message w) Hm) as [Hs [_ [_ Hd]]].
    now split.
Qed.

Lemma C8_unmatched_not_found_witness :
  emits_request (http11 GET "/anything" []) = true
  /\ (((method (message (http11 GET "/anything" [])) <> GET
        /\ method (message (http11 GET "/anything" [])) <> HEAD
        /\ method (message (http11 GET "/anything" [])) <> OPTIONS)
       \/ (getPathname sample_deps (message (http11 GET "/anything" []))
           <> Some "/"
           /\ getPathname sample_deps (message (http11 GET "/anything" []))
              <> Some "") ->
       statusCode (answer sample_deps Process.initial
                     (http11 GET "/anything" [])) = 404%Z
       /\ finished (answer sample_deps Process.initial
                      (http11 GET "/anything" [])) = true)
      /\ (method (message (http11 GET "/anything" [])) = OPTIONS ->
          getPathname sample_deps (message (http11 GET "/anything" []))
          = Some "/"
          \/ getPathname sample_deps (message (http11 GET "/anything" []))
             = Some "" ->
          statusCode (answer sample_deps Process.initial
                        (http11 GET "/anything" [])) = 200%Z
          /\ finished (answer sample_deps Process.initial
                         (http11 GET "/anything" [])) = true)
      /\ routes (app sample_deps) = [("/", ["get"])])
  /\ statusCode (answer sample_deps Process.initial
                   (http11 GET "/anything" [])) = 404%Z.
Proof.
  split; [reflexivity|]. split; [|reflexivity].
  exact (C8_unmatched_not_found sample_deps Process.initial
           (http11 GET "/anything" []) eq_refl).
Defined.

(** C8 as stated fails: the HTTP/1.1 request [OPTIONS /] with [Host] has a
    method other than [GET] and [HEAD] and reaches the application, and the
    router answers it 200, not 404. *)
Lemma C8_options_root_allowed :
  method (message (http11 OPTIONS "/" [])) <> GET
  /\ method (message (http11 OPTIONS "/" [])) <> HEAD
  /\ emits_request (http11 OPTIONS "/" []) = true
  /\ forall (D : Deps) (st : Process.State),
       statusCode (answer D st (http11 OPTIONS "/" [])) = 200%Z.
Proof.
  split; [discriminate|]. split; [discriminate|]. split; [reflexivity|].
  intros D st.
  destruct (on_incoming_emitted D st (http11 OPTIONS "/" []) eq_refl)
    as [-> _].
  unfold respond. rewrite on_request_cases.
  now destruct (sendOptionsResponse_root D (message (http11 OPTIONS "/" []))
                  eq_refl) as [Hs _].
Qed.

(** ** State *)

(** The program makes one bind attempt, on [PORT], whether it succeeds or
    not. *)
Lemma main_binds_once (D : Deps) (occupied : list Z) :
  Process.bind_calls (listen_state (main D occupied)) = [PORT].
Proof.
  unfold main, app_listen.
  destruct (existsb (Z.eqb PORT) occupied); reflexivity.
Qed.

(** C5.  The port is the one constant [PORT], 3000.  A start of the program
    makes exactly one bind attempt, on that port, on any machine; when the
    server is listening it listens on that port only, and while it handles
    requests the bind log and the listening ports stay as they were after the
    start. *)
Theorem C5_port_bound_once (D : Deps) (occupied : list Z) (a : Application)
    (st : Process.State) (history : list IncomingMessage) :
  main D occupied = Listening a st ->
  PORT = 3000%Z
  /\ (forall machine : list Z,
        Process.bind_calls (listen_state (main D machine)) = [PORT])
  /\ Process.bind_calls st = [PORT]
  /\ Process.listening st = [PORT]
  /\ Process.bind_calls (snd (request_events D a st history)) = [PORT]
  /\ Process.listening (snd (request_events D a st history)) = [PORT].
Proof.
  intros Hmain. pose proof (main_listener D occupied a st Hmain). subst a.
  fold (serve D st history). rewrite serve_state.
  unfold main, app_listen in Hmain.
  destruct (existsb (Z.eqb PORT) occupied); [discriminate Hmain|].
  injection Hmain as <-.
  repeat split; auto using main_binds_once.
Qed.

Lemma C5_port_bound_once_witness :
  main sample_deps [80%Z]
  = Listening (app sample_deps) (listen_state (main sample_deps [80%Z]))
  /\ (PORT = 3000%Z
      /\ (forall machine : list Z,
            Process.bind_calls (listen_state (main sample_deps machine))
            = [PORT])
      /\ Process.bind_calls (listen_state (main sample_deps [80%Z])) = [PORT]
      /\ Process.listening (listen_state (main sample_deps [80%Z])) = [PORT]
      /\ Process.bind_calls
           (snd (request_events sample_deps (app sample_deps)
                   (listen_state (main sample_deps [80%Z]))
                   [request GET "/"; request POST "/"])) = [PORT]
      /\ Process.listening
           (snd (request_events sample_deps (app sample_deps)
                   (listen_state (main sample_deps [80%Z]))
                   [request GET "/"; request POST "/"])) = [PORT]).
Proof.
  split; [reflexivity|].
  exact (C5_port_bound_once sample_deps [80%Z] (app sample_deps)
           (listen_state (main sample_deps [80%Z]))
           [request GET "/"; request POST "/"] eq_refl).
Defined.

(** C6.  Handling a request to the root path leaves the process state (the
    output written, the listening ports, the bind log) as it was, and with it
    the response to any later request. *)
Theorem C6_root_request_frame (D : Deps) (st : Process.State)
    (req : IncomingMessage) :
  getPathname D req = Some "/" ->
  snd (on_request D st req) = st
  /\ forall later : IncomingMessage,
       respond D (snd (on_request D st req)) later = respond D st later.
Proof.
  intros _. split; [apply on_request_state|].
  intros later. apply respond_any_state.
Qed.

Lemma C6_root_request_frame_witness :
  getPathname sample_deps (request GET "/") = Some "/"
  /\ (snd (on_request sample_deps (listen_state (main sample_deps [])) (request GET "/"))
      = listen_state (main sample_deps [])
      /\ forall later : IncomingMessage,
           respond sample_deps
             (snd (on_request sample_deps (listen_state (main sample_deps []))
                     (request GET "/"))) later
           = respond sample_deps (listen_state (main sample_deps [])) later).
Proof.
  split; [reflexivity|].
  exact (C6_root_request_frame sample_deps (listen_state (main sample_deps []))
           (request GET "/") eq_refl).
Defined.

(** C7.  The response to a request does not depend on the requests handled
    before it: after any two histories the same request gets the same
    response, and neither history has changed the state. *)
Theorem C7_history_independent (D : Deps) (st : Process.State)
    (history1 history2 : list IncomingMessage) (req : IncomingMessage) :
  respond D (snd (serve D st history1)) req
  = respond D (snd (serve D st history2)) req
  /\ snd (serve D st history1) = st
  /\ snd (serve D st history2) = st.
Proof. rewrite !serve_state. repeat split. Qed.

(** ** The greeting response *)

(** C9, as amended.  When [GET /] is answered with status 200, the body is
    the greeting string, byte for byte, and the content type is
    [text/html; charset=utf-8]. *)
Theorem C9_greeting_body_and_type (D : Deps) (st : Process.State)
    (req : IncomingMessage) :
  method req = GET ->
  getPathname D req = Some "/" ->
  statusCode (respond D st req) = 200%Z ->
  resBody (respond D st req) = "Hello from ECS deployed via Azure DevOps 🚀"
  /\ getHeader "Content-Type" (respond D st req)
     = Some "text/html; charset=utf-8".
Proof.
  intros Hm Hp. rewrite (respond_root D st req Hp (or_introl Hm)), Hm.
  destruct (is_fresh D req); [discriminate|]. intros _. now split.
Qed.

Lemma C9_greeting_body_and_type_witness :
  method (request GET "/") = GET
  /\ getPathname sample_deps (request GET "/") = Some "/"
  /\ statusCode (respond sample_deps Process.initial (request GET "/")) = 200%Z
  /\ (resBody (respond sample_deps Process.initial (request GET "/"))
      = "Hello from ECS deployed via Azure DevOps 🚀"
      /\ getHeader "Content-Type"
           (respond sample_deps Process.initial (request GET "/"))
         = Some "text/html; charset=utf-8").
Proof.
  split; [reflexivity|]. split; [reflexivity|]. split; [reflexivity|].
  exact (C9_greeting_body_and_type sample_deps Process.initial
           (request GET "/") eq_refl eq_refl eq_refl).
Defined.

(** C9 as stated fails: the response to [GET /] with [If-None-Match: *] has an
    empty body and no content type. *)
Lemma C9_conditional_get_empty :
  method (conditional GET) = GET
  /\ forall (D : Deps) (st : Process.State),
       resBody (respond D st (conditional GET)) = ""
       /\ getHeader "Content-Type" (respond D st (conditional GET)) = None.
Proof.
  split; [reflexivity|]. intros D st.
  rewrite (respond_root D st (conditional GET) eq_refl (or_introl eq_refl)).
  rewrite conditional_fresh. unfold getHeader, not_modified_headers, etag_field.
  destruct (entity_tag D); now split.
Qed.

(** C10, as amended.  A [HEAD] request for [/] is served by the route
    registered for [get], the only route: it gets the status and the header
    fields of the same request sent with [GET], and an empty body; when the
    server hands it to the application and it is not a fresh conditional
    request, the status is 200. *)
Theorem C10_head_root (D : Deps) (st : Process.State) (w : Incoming) :
  method (message w) = HEAD ->
  getPathname D (message w) = Some "/" ->
  routes (app D) = [("/", ["get"])]
  /\ statusCode (answer D st w) = statusCode (answer D st (incoming_as_get w))
  /\ resHeaders (answer D st w) = resHeaders (answer D st (incoming_as_get w))
  /\ resBody (answer D st w) = ""
  /\ (emits_request w = true ->
      is_fresh D (message w) = false ->
      statusCode (answer D st w) = 200%Z).
Proof.
  intros Hm Hp. split; [reflexivity|].
  destruct (emits_request w) eqn:He.
  - assert (Hg : emits_request (incoming_as_get w) = true) by exact He.
    destruct (on_incoming_emitted D st w He) as [-> _].
    destruct (on_incoming_emitted D st (incoming_as_get w) Hg) as [-> _].
    cbn [incoming_as_get message].
    rewrite (respond_root D st (message w) Hp (or_intror Hm)), Hm.
    rewrite (respond_root D st (as_get (message w)) Hp (or_introl eq_refl)).
    change (is_fresh D (as_get (message w))) with (is_fresh D (message w)).
    destruct (is_fresh D (message w)); repeat split; intros _ E;
      discriminate E.
  - assert (Hg : emits_request (incoming_as_get w) = false) by exact He.
    assert (Ha : answer D st w = answer D st (incoming_as_get w)).
    { unfold answer, on_incoming, parserOnIncoming.
      unfold emits_request in He. cbn [incoming_as_get httpVersionMajor
        httpVersionMinor message as_get headers].
      destruct (on_request D st (message w)) as [r1 s1].
      destruct (on_request D st
                  {| method := GET; url := url (message w);
                     headers := headers (message w);
                     body := body (message w) |}) as [r2 s2].
      destruct (Nat.eqb (httpVersionMajor w) 1
                && Nat.eqb (httpVersionMinor w) 1); [|discriminate].
      destruct (lookup "host" (headers (message w))); [|reflexivity].
      destruct (lookup "expect" (headers (message w))) as [e|];
        [|discriminate].
      destruct (continueExpression e); [discriminate | reflexivity]. }
    rewrite <- Ha.
    destruct (refused_status D st w He) as [_ [_ [Hb _]]].
    repeat split; trivial. intros E. discriminate E.
Qed.

Lemma C10_head_root_witness :
  method (message (http11 HEAD "/" [])) = HEAD
  /\ getPathname sample_deps (message (http11 HEAD "/" [])) = Some "/"
  /\ (routes (app sample_deps) = [("/", ["get"])]
      /\ statusCode (answer sample_deps Process.initial (http11 HEAD "/" []))
         = statusCode
             (answer sample_deps Process.initial
                (incoming_as_get (http11 HEAD "/" [])))
      /\ resHeaders (answer sample_deps Process.initial (http11 HEAD "/" []))
         = resHeaders
             (answer sample_deps Process.initial
                (incoming_as_get (http11 HEAD "/" [])))
      /\ resBody (answer sample_deps Process.initial (http11 HEAD "/" []))
         = ""
      /\ (emits_request (http11 HEAD "/" []) = true ->
          is_fresh sample_deps (message (http11 HEAD "/" [])) = false ->
          statusCode (answer sample_deps Process.initial
                        (http11 HEAD "/" [])) = 200%Z))
  /\ statusCode (answer sample_deps Process.initial (http11 HEAD "/" []))
     = 200%Z.
Proof.
  split; [reflexivity|]. split; [reflexivity|]. split; [|reflexivity].
  exact (C10_head_root sample_deps Process.initial (http11 HEAD "/" [])
           eq_refl eq_refl).
Defined.

(** C10 as stated fails: the HTTP/1.1 request [HEAD /] with [Host] and
    [If-None-Match: *] reaches the application and is answered 304. *)
Lemma C10_conditional_head_not_modified :
  method (message (http11 HEAD "/" [("if-none-match", "*")])) = HEAD
  /\ emits_request (http11 HEAD "/" [("if-none-match", "*")]) = true
  /\ forall (D : Deps) (st : Process.State),
       getPathname D (message (http11 HEAD "/" [("if-none-match", "*")]))
       = Some "/"
       /\ statusCode (answer D st (http11 HEAD "/" [("if-none-match", "*")]))
          = 304%Z.
Proof.
  split; [reflexivity|]. split; [reflexivity|]. intros D st.
  split; [reflexivity|].
  destruct (on_incoming_emitted D st
              (http11 HEAD "/" [("if-none-match", "*")]) eq_refl) as [-> _].
  rewrite (respond_root D st
             (message (http11 HEAD "/" [("if-none-match", "*")]))
             eq_refl (or_intror eq_refl)).
  assert (Hf : is_fresh D (message (http11 HEAD "/" [("if-none-match", "*")]))
               = true) by reflexivity.
  now rewrite Hf.
Qed.

(** * Further properties of the program *)

(** ** Helpers *)

Lemma lookup_assign_same (name value : string) (hs : Headers) :
  lookup name (assign name value hs) = Some value.
Proof.
  induction hs as [|[k v] rest IH]; simpl.
  - now rewrite String.eqb_refl.
  - destruct (String.eqb k name) eqn:E; simpl; rewrite E; [reflexivity | exact IH].
Qed.

Lemma not_head_name (m : Method) :
  m <> HEAD -> String.eqb (method_name m) "HEAD" = false.
Proof. destruct m; intros H; try reflexivity; congruence. Qed.

Lemma parseurl_root_query (D : Deps) (q : string) :
  JS.any_char slow_char q = false ->
  parseurl D ("/?" ++ q) = Parsed (Some "/").
Proof.
  intros Hq. unfold parseurl.
  change ("/?" ++ q) with (String "/" (String "?" q)).
  cbn [JS.any_char]. rewrite Hq. reflexivity.
Qed.

Section MoreResponses.
Context (D : Deps).

Lemma finalhandler_body_length (req : IncomingMessage) (res : ServerResponse) :
  method req <> HEAD ->
  finished res = false ->
  lookup "content-length" (resHeaders (finalhandler D req res))
  = Some (JS.nat_toString (String.length (resBody (finalhandler D req res)))).
Proof.
  intros Hm Hf. unfold finalhandler. rewrite Hf, (not_head_name _ Hm).
  unfold end_. cbn [finished setHeader setStatus removeHeader]. rewrite Hf.
  cbn [resHeaders resBody].
  change (JS.toLowerCase "Content-Length") with "content-length".
  apply lookup_assign_same.
Qed.

Lemma finalhandler_head (req : IncomingMessage) (res : ServerResponse) :
  method req = HEAD ->
  finished res = false ->
  resBody (finalhandler D req res) = "".
Proof.
  intros Hm Hf. unfold finalhandler. rewrite Hf, Hm.
  unfold end_. cbn [finished setHeader setStatus removeHeader method_name String.eqb]. 
  simpl. rewrite Hf. reflexivity.
Qed.

Lemma finalhandler_initialised_powered (req : IncomingMessage) :
  lookup "x-powered-by" (resHeaders (finalhandler D req initialised))
  = Some "Express".
Proof.
  unfold finalhandler. cbn [finished initialised setHeader createResponse].
  destruct (String.eqb (method_name (method req)) "HEAD"); reflexivity.
Qed.

Lemma sendOptionsResponse_fields (req : IncomingMessage) :
  method req = OPTIONS ->
  let res := sendOptionsResponse D defaultConfiguration req ["GET"; "HEAD"] initialised in
  lookup "content-length" (resHeaders res) = Some "8"
  /\ lookup "x-powered-by" (resHeaders res) = Some "Express".
Proof.
  intros Hm.
  assert (Hf : forall r, req_fresh D req r = false)
    by (intro r; unfold req_fresh; rewrite Hm; reflexivity).
  unfold sendOptionsResponse, res_send, send_freshness.
  change (JS.join "," ["GET"; "HEAD"]) with "GET,HEAD".
  rewrite Hf. unfold send_headers, send_body. rewrite Hm.
  generalize (etag D "GET,HEAD") as e. intros [|c e]; repeat split.
Qed.

(** The response to a request is one of three: what [res.send] makes of the
    greeting, the automatic reply to [OPTIONS], or the reply of the final
    handler to a response that was still open. *)
Lemma respond_cases (st : Process.State) (req : IncomingMessage) :
  ((method req = GET \/ method req = HEAD)
   /\ respond D st req = res_send D defaultConfiguration req greeting initialised)
  \/ (method req = OPTIONS
      /\ respond D st req
         = sendOptionsResponse D defaultConfiguration req ["GET"; "HEAD"] initialised)
  \/ (exists res, finished res = false
                  /\ (getPathname D req <> None -> res = initialised)
                  /\ respond D st req = finalhandler D req res).
Proof.
  unfold respond. rewrite on_request_cases. cbn [fst].
  destruct (getPathname D req) as [p|];
    [|right; right; exists createResponse; repeat split; congruence].
  destruct (layer_match "/" p);
    [|right; right; exists initialised; repeat split].
  destruct (method req) eqn:Hm;
    try (right; right; exists initialised; now repeat split).
  - left. split; [now left | reflexivity].
  - left. split; [now right | reflexivity].
  - right; left. now split.
Qed.

End MoreResponses.

(** ** Every request *)



(** X3.  The response to a [HEAD] request has no body, whatever the path. *)
Theorem X3_head_body_empty (D : Deps) (st : Process.State)
    (req : IncomingMessage) :
  method req = HEAD -> resBody (respond D st req) = "".
Proof.
  intros Hm.
  destruct (respond_cases D st req) as [[_ ->] | [[Ho ->] | [res [Hf [_ ->]]]]].
  - rewrite (res_send_greeting D req (or_intror Hm)), Hm.
    now destruct (is_fresh D req).
  - congruence.
  - now apply finalhandler_head.
Qed.

(** X4.  When the response to a request other than [HEAD] carries
    [Content-Length], the field is the byte length of the body that is
    sent. *)
Theorem X4_content_length_is_body_length (D : Deps) (st : Process.State)
    (req : IncomingMessage) (v : string) :
  method req <> HEAD ->
  lookup "content-length" (resHeaders (respond D st req)) = Some v ->
  v = JS.nat_toString (String.length (resBody (respond D st req))).
Proof.
  intros Hm.
  destruct (respond_cases D st req) as [[Hg ->] | [[Ho ->] | [res [Hf [_ ->]]]]].
  - destruct Hg as [Hg | Hg]; [|congruence].
    rewrite (res_send_greeting D req (or_introl Hg)), Hg.
    unfold not_modified_headers, greeting_headers, etag_field.
    destruct (is_fresh D req), (entity_tag D); cbn; congruence.
  - destruct (sendOptionsResponse_root D req Ho) as [_ [_ [Hb _]]].
    destruct (sendOptionsResponse_fields D req Ho) as [Hl _].
    rewrite Hb, Hl. intros E. now injection E as <-.
  - rewrite (finalhandler_body_length D req res Hm Hf). congruence.
Qed.

(** The program never disables [x-powered-by]: every response of the
    application to a request whose target has a pathname carries the
    field. *)
Lemma respond_powered_by (D : Deps) (st : Process.State)
    (req : IncomingMessage) :
  getPathname D req <> None ->
  lookup "x-powered-by" (resHeaders (respond D st req)) = Some "Express".
Proof.
  intros Hp.
  destruct (respond_cases D st req) as [[Hg ->] | [[Ho ->] | [res [Hf [Hi ->]]]]].
  - rewrite (res_send_greeting D req Hg). now destruct (is_fresh D req).
  - now destruct (sendOptionsResponse_fields D req Ho).
  - rewrite (Hi Hp). apply finalhandler_initialised_powered.
Qed.

(** X10.  The program never disables [x-powered-by]: for a request whose
    target has a pathname, the response carries [X-Powered-By: Express]
    when the application answers (200, 304, 404 alike), and carries no such
    field when the server answers itself. *)
Theorem X10_powered_by (D : Deps) (st : Process.State) (w : Incoming) :
  getPathname D (message w) <> None ->
  lookup "x-powered-by" (resHeaders (answer D st w))
  = if emits_request w then Some "Express" else None.
Proof.
  intros Hp. destruct (emits_request w) eqn:He.
  - destruct (on_incoming_emitted D st w He) as [-> _].
    now apply respond_powered_by.
  - now destruct (refused_status D st w He) as [_ [_ [_ [_ Hx]]]].
Qed.

Lemma any_char_or (p q : ascii -> bool) (s : string) :
  JS.any_char (fun c => p c || q c) s = false ->
  JS.any_char p s = false /\ JS.any_char q s = false.
Proof.
  induction s as [|c s IH]; simpl; [now split|].
  intros H. apply orb_false_iff in H. destruct H as [Hc Hs].
  apply orb_false_iff in Hc. destruct Hc as [Hp Hq].
  destruct (IH Hs) as [IHp IHq]. now rewrite Hp, Hq, IHp, IHq.
Qed.

Lemma split_without_separator (sep : ascii) (s : string) :
  JS.any_char (fun c => Ascii.eqb c sep) s = false -> JS.split sep s = [s].
Proof.
  induction s as [|c s IH]; simpl; [reflexivity|].
  intros H. apply orb_false_iff in H. destruct H as [Hc Hs].
  now rewrite Hc, (IH Hs).
Qed.

Lemma drop_end_none (p : ascii -> bool) (s : string) :
  JS.any_char p s = false -> JS.drop_end p s = s.
Proof.
  induction s as [|c s IH]; simpl; [reflexivity|].
  intros H. apply orb_false_iff in H. destruct H as [Hc Hs].
  rewrite (IH Hs), Hc. now destruct s.
Qed.

Lemma trim_none (p : ascii -> bool) (s : string) :
  JS.any_char p s = false -> JS.trim p s = s.
Proof.
  intros H. unfold JS.trim.
  assert (Hd : JS.drop_while p s = s).
  { destruct s as [|c s]; [reflexivity|]. simpl in *.
    apply orb_false_iff in H. destruct H as [Hc _]. now rewrite Hc. }
  rewrite Hd. now apply drop_end_none.
Qed.

Lemma parseTokenList_single (e : string) :
  JS.any_char (fun c => is_space c || Ascii.eqb c ",") e = false ->
  parseTokenList e = [e].
Proof.
  intros H. apply any_char_or in H. destruct H as [Hs Hc].
  unfold parseTokenList. rewrite (split_without_separator _ _ Hc).
  cbn [map]. now rewrite (trim_none _ _ Hs).
Qed.

Lemma no_cache_nonempty (cc : string) : no_cache cc = true -> JS.falsy cc = false.
Proof. destruct cc; [discriminate | reflexivity]. Qed.

(** ** Requests for [/]

    X5.  A query string after [/] and the payload of the request change
    nothing: with the same method and header fields the response is the one
    to the bare [/]. *)
Theorem X5_query_and_body_ignored (D : Deps) (st : Process.State) (m : Method)
    (q : string) (hs : Headers) (b b' : string) :
  JS.any_char slow_char q = false ->
  respond D st {| method := m; url := "/?" ++ q; headers := hs; body := b |}
  = respond D st {| method := m; url := "/"; headers := hs; body := b' |}.
Proof.
  intros Hq. unfold respond. rewrite !on_request_cases.
  rewrite (getPathname_root_query D m q hs b Hq).
  change (getPathname D {| method := m; url := "/"; headers := hs; body := b' |})
    with (Some "/").
  cbn [fst]. change (layer_match "/" "/") with true. cbv iota.
  assert (Hfin : finalhandler D {| method := m; url := "/?" ++ q; headers := hs; body := b |} initialised
                 = finalhandler D {| method := m; url := "/"; headers := hs; body := b' |} initialised).
  { unfold finalhandler, getResourceName. cbn [url method].
    rewrite (parseurl_root_query D q Hq). reflexivity. }
  destruct m; cbn [method]; try exact Hfin; reflexivity.
Qed.

(** X6.  A [GET] for [/] that the server hands to the application and that
    carries neither [If-None-Match] nor [If-Modified-Since] gets the full
    greeting response: status 200, the greeting headers, the greeting
    body. *)
Theorem X6_unconditional_get (D : Deps) (st : Process.State) (w : Incoming) :
  method (message w) = GET ->
  getPathname D (message w) = Some "/" ->
  emits_request w = true ->
  lookup "if-none-match" (headers (message w)) = None ->
  lookup "if-modified-since" (headers (message w)) = None ->
  answer D st w
  = {| statusCode := 200;
       resHeaders := greeting_headers D;
       resBody := greeting;
       finished := true |}.
Proof.
  intros Hm Hp He H1 H2.
  destruct (on_incoming_emitted D st w He) as [-> _].
  rewrite (respond_root D st (message w) Hp (or_introl Hm)).
  now rewrite (unconditional_not_fresh D (message w) H1 H2), Hm.
Qed.

(** X7.  A [GET] for [/] that the server hands to the application and whose
    [Cache-Control] value matches the pattern of [fresh] for [no-cache]
    (one of its comma separated elements is [no-cache], in lower case,
    white space around it aside) gets status 200 and the greeting, whatever
    validators it carries. *)
Theorem X7_no_cache_full_response (D : Deps) (st : Process.State)
    (w : Incoming) (cc : string) :
  method (message w) = GET ->
  getPathname D (message w) = Some "/" ->
  emits_request w = true ->
  lookup "cache-control" (headers (message w)) = Some cc ->
  no_cache cc = true ->
  statusCode (answer D st w) = 200%Z
  /\ resBody (answer D st w) = greeting.
Proof.
  intros Hm Hp He Hc Hn.
  assert (Hf : is_fresh D (message w) = false).
  { unfold is_fresh, fresh. rewrite Hc, Hn, (no_cache_nonempty cc Hn).
    cbn [negb andb].
    now destruct
      (negb (truthy (lookup "if-modified-since" (headers (message w))))
       && negb (truthy (lookup "if-none-match" (headers (message w))))). }
  destruct (on_incoming_emitted D st w He) as [-> _].
  rewrite (respond_root D st (message w) Hp (or_introl Hm)), Hf, Hm.
  now split.
Qed.

(** X8.  Revalidation round trip.  Let [e] be the entity tag the server
    returned with a [GET] for [/], a single token (no comma, no space).  A
    [GET] for [/] that the server hands to the application, that sends [e]
    back as its [If-None-Match], that has no [If-Modified-Since] and whose
    [Cache-Control], if any, does not match the [no-cache] pattern, is
    answered 304 with no body, the same entity tag, and neither
    [Content-Type] nor [Content-Length]. *)
Theorem X8_revalidation_not_modified (D : Deps) (st : Process.State)
    (first again : Incoming) (e : string) :
  method (message first) = GET ->
  getPathname D (message first) = Some "/" ->
  emits_request first = true ->
  lookup "etag" (resHeaders (answer D st first)) = Some e ->
  JS.any_char (fun c => is_space c || Ascii.eqb c ",") e = false ->
  method (message again) = GET ->
  getPathname D (message again) = Some "/" ->
  emits_request again = true ->
  lookup "if-none-match" (headers (message again)) = Some e ->
  truthy (lookup "if-modified-since" (headers (message again))) = false ->
  (forall cc : string,
     lookup "cache-control" (headers (message again)) = Some cc ->
     no_cache cc = false) ->
  statusCode (answer D st again) = 304%Z
  /\ resBody (answer D st again) = ""
  /\ lookup "etag" (resHeaders (answer D st again)) = Some e
  /\ lookup "content-type" (resHeaders (answer D st again)) = None
  /\ lookup "content-length" (resHeaders (answer D st again)) = None.
Proof.
  intros Hm1 Hp1 He1 Htag0 Htok Hm Hp He Hnm Hms Hcc.
  destruct (on_incoming_emitted D st first He1) as [Ha1 _].
  rewrite Ha1, (respond_root D st (message first) Hp1 (or_introl Hm1)) in Htag0.
  assert (Htag : entity_tag D = Some e).
  { unfold greeting_headers, not_modified_headers, etag_field in Htag0.
    destruct (is_fresh D (message first)), (entity_tag D) as [t|];
      cbn in Htag0; congruence. }
  assert (Hne : JS.falsy e = false).
  { unfold entity_tag in Htag.
    destruct (JS.falsy (etag D greeting)) eqn:E; [discriminate|].
    injection Htag as <-. exact E. }
  assert (Hf : is_fresh D (message again) = true).
  { unfold is_fresh, fresh. rewrite Htag, Hnm, Hms. unfold truthy at 1.
    rewrite Hne, (parseTokenList_single e Htok).
    cbn [existsb negb andb]. unfold etag_matches. rewrite String.eqb_refl.
    cbn [orb negb andb].
    assert (Hc : match lookup "cache-control" (headers (message again)) with
                 | Some cc => negb (JS.falsy cc) && no_cache cc
                 | None => false
                 end = false).
    { destruct (lookup "cache-control" (headers (message again))) as [cc|];
        [|reflexivity].
      rewrite (Hcc cc eq_refl). apply andb_false_r. }
    rewrite Hc.
    assert (Hs : match lookup "if-modified-since" (headers (message again)) with
                 | Some ms => negb (JS.falsy ms) && true
                 | None => false
                 end = false).
    { unfold truthy in Hms.
      destruct (lookup "if-modified-since" (headers (message again)));
        [now rewrite Hms | reflexivity]. }
    rewrite andb_false_r. rewrite Hs. reflexivity. }
  destruct (on_incoming_emitted D st again He) as [-> _].
  rewrite (respond_root D st (message again) Hp (or_introl Hm)), Hf.
  unfold not_modified_headers, etag_field. rewrite Htag. repeat split.
Qed.

(** ** Histories and the start

    X9.  The responses to a history of requests are, in order, the responses
    each request would get alone from a freshly started process, and the
    process state after the history is the state before it. *)
Theorem X9_history_responses (D : Deps) (st : Process.State)
    (history : list IncomingMessage) :
  fst (serve D st history) = map (respond D Process.initial) history
  /\ snd (serve D st history) = st.
Proof.
  split; [|apply serve_state].
  rewrite serve_responses. apply map_ext. intros req.
  apply respond_any_state.
Qed.

(** X1.  A start that succeeds writes one line, [App running on port 3000],
    and handling requests writes nothing more. *)
Theorem X1_start_logs_once (D : Deps) (occupied : list Z) (a : Application)
    (st : Process.State) (history : list IncomingMessage) :
  main D occupied = Listening a st ->
  Process.stdout st = ["App running on port 3000"]
  /\ Process.stdout (snd (request_events D a st history))
     = ["App running on port 3000"].
Proof.
  intros Hmain. pose proof (main_listener D occupied a st Hmain). subst a.
  fold (serve D st history). rewrite serve_state.
  unfold main, app_listen in Hmain.
  destruct (existsb (Z.eqb PORT) occupied); [discriminate Hmain|].
  injection Hmain as <-. now split.
Qed.

(** ** Instances *)

Lemma X1_start_logs_once_witness :
  main sample_deps [8080%Z]
  = Listening (app sample_deps) (listen_state (main sample_deps [8080%Z]))
  /\ (Process.stdout (listen_state (main sample_deps [8080%Z]))
      = ["App running on port 3000"]
      /\ Process.stdout
           (snd (request_events sample_deps (app sample_deps)
                   (listen_state (main sample_deps [8080%Z]))
                   [request GET "/"; request GET "/missing"]))
         = ["App running on port 3000"]).
Proof.
  split; [reflexivity|].
  exact (X1_start_logs_once sample_deps [8080%Z] (app sample_deps)
           (listen_state (main sample_deps [8080%Z]))
           [request GET "/"; request GET "/missing"] eq_refl).
Defined.

Lemma X3_head_body_empty_witness :
  method (request HEAD "/missing") = HEAD
  /\ resBody (respond sample_deps Process.initial (request HEAD "/missing")) = "".
Proof.
  split; [reflexivity|].
  exact (X3_head_body_empty sample_deps Process.initial
           (request HEAD "/missing") eq_refl).
Defined.

Lemma X4_content_length_is_body_length_witness :
  method (request POST "/") <> HEAD
  /\ lookup "content-length"
       (resHeaders (respond sample_deps Process.initial (request POST "/")))
     = Some "24"
  /\ "24" = JS.nat_toString
              (String.length
                 (resBody (respond sample_deps Process.initial
                             (request POST "/")))).
Proof.
  assert (Hm : method (request POST "/") <> HEAD) by discriminate.
  split; [exact Hm|]. split; [reflexivity|].
  exact (X4_content_length_is_body_length sample_deps Process.initial
           (request POST "/") "24" Hm eq_refl).
Defined.

Lemma X5_query_and_body_ignored_witness :
  JS.any_char slow_char "utm_source=mail&x=1" = false
  /\ respond sample_deps Process.initial
       {| method := GET; url := "/?" ++ "utm_source=mail&x=1";
          headers := [("accept", "text/html")]; body := "payload" |}
     = respond sample_deps Process.initial
         {| method := GET; url := "/";
            headers := [("accept", "text/html")]; body := "" |}.
Proof.
  split; [reflexivity|].
  exact (X5_query_and_body_ignored sample_deps Process.initial GET
           "utm_source=mail&x=1" [("accept", "text/html")] "payload" ""
           eq_refl).
Defined.

Lemma X6_unconditional_get_witness :
  method (message (http11 GET "/" [])) = GET
  /\ getPathname sample_deps (message (http11 GET "/" [])) = Some "/"
  /\ emits_request (http11 GET "/" []) = true
  /\ lookup "if-none-match" (headers (message (http11 GET "/" []))) = None
  /\ lookup "if-modified-since" (headers (message (http11 GET "/" []))) = None
  /\ answer sample_deps Process.initial (http11 GET "/" [])
     = {| statusCode := 200;
          resHeaders := greeting_headers sample_deps;
          resBody := greeting;
          finished := true |}.
Proof.
  split; [reflexivity|]. split; [reflexivity|]. split; [reflexivity|].
  split; [reflexivity|]. split; [reflexivity|].
  exact (X6_unconditional_get sample_deps Process.initial (http11 GET "/" [])
           eq_refl eq_refl eq_refl eq_refl eq_refl).
Defined.

Lemma X7_no_cache_full_response_witness :
  method
    (message (http11 GET "/" [("if-none-match", "*");
                              ("cache-control", "max-age=0, no-cache")]))
  = GET
  /\ getPathname sample_deps
       (message (http11 GET "/" [("if-none-match", "*");
                                 ("cache-control", "max-age=0, no-cache")]))
     = Some "/"
  /\ emits_request
       (http11 GET "/" [("if-none-match", "*");
                        ("cache-control", "max-age=0, no-cache")]) = true
  /\ lookup "cache-control"
       (headers
          (message (http11 GET "/" [("if-none-match", "*");
                                    ("cache-control", "max-age=0, no-cache")])))
     = Some "max-age=0, no-cache"
  /\ no_cache "max-age=0, no-cache" = true
  /\ (statusCode
        (answer sample_deps Process.initial
           (http11 GET "/" [("if-none-match", "*");
                            ("cache-control", "max-age=0, no-cache")]))
      = 200%Z
      /\ resBody
           (answer sample_deps Process.initial
              (http11 GET "/" [("if-none-match", "*");
                               ("cache-control", "max-age=0, no-cache")]))
         = greeting).
Proof.
  split; [reflexivity|]. split; [reflexivity|]. split; [reflexivity|].
  split; [reflexivity|]. split; [reflexivity|].
  exact (X7_no_cache_full_response sample_deps Process.initial
           (http11 GET "/" [("if-none-match", "*");
                            ("cache-control", "max-age=0, no-cache")])
           "max-age=0, no-cache" eq_refl eq_refl eq_refl eq_refl eq_refl).
Defined.

Lemma X8_revalidation_not_modified_witness :
  lookup "etag"
    (resHeaders (answer sample_deps Process.initial (http11 GET "/" [])))
  = Some "W/45"
  /\ JS.any_char (fun c => is_space c || Ascii.eqb c ",") "W/45" = false
  /\ emits_request
       (http11 GET "/" [("accept", "*/*"); ("cache-control", "max-age=0");
                        ("if-none-match", "W/45")]) = true
  /\ (statusCode
        (answer sample_deps Process.initial
           (http11 GET "/" [("accept", "*/*"); ("cache-control", "max-age=0");
                            ("if-none-match", "W/45")])) = 304%Z
      /\ resBody
           (answer sample_deps Process.initial
              (http11 GET "/" [("accept", "*/*");
                               ("cache-control", "max-age=0");
                               ("if-none-match", "W/45")])) = ""
      /\ lookup "etag"
           (resHeaders
              (answer sample_deps Process.initial
                 (http11 GET "/" [("accept", "*/*");
                                  ("cache-control", "max-age=0");
                                  ("if-none-match", "W/45")])))
         = Some "W/45"
      /\ lookup "content-type"
           (resHeaders
              (answer sample_deps Process.initial
                 (http11 GET "/" [("accept", "*/*");
                                  ("cache-control", "max-age=0");
                                  ("if-none-match", "W/45")])))
         = None
      /\ lookup "content-length"
           (resHeaders
              (answer sample_deps Process.initial
                 (http11 GET "/" [("accept", "*/*");
                                  ("cache-control", "max-age=0");
                                  ("if-none-match", "W/45")])))
         = None).
Proof.
  split; [reflexivity|]. split; [reflexivity|]. split; [reflexivity|].
  refine (X8_revalidation_not_modified sample_deps Process.initial
            (http11 GET "/" [])
            (http11 GET "/" [("accept", "*/*"); ("cache-control", "max-age=0");
                             ("if-none-match", "W/45")])
            "W/45" eq_refl eq_refl eq_refl eq_refl eq_refl eq_refl eq_refl
            eq_refl eq_refl eq_refl _).
  intros cc Hcc. injection Hcc as <-. reflexivity.
Defined.

Lemma X10_powered_by_witness :
  getPathname sample_deps (message (http11 DELETE "/users/7" [])) <> None
  /\ lookup "x-powered-by"
       (resHeaders
          (answer sample_deps Process.initial (http11 DELETE "/users/7" [])))
     = Some "Express".
Proof.
  assert (Hp : getPathname sample_deps (message (http11 DELETE "/users/7" []))
               <> None)
    by discriminate.
  split; [exact Hp|].
  exact (X10_powered_by sample_deps Process.initial
           (http11 DELETE "/users/7" []) Hp).
Defined.
